(** * Wii remote driver: channel, report mapping and device state

    A shallow embedding of [wii-remote-driver.c].  The module's static
    variables become one record ([driver]); every C function becomes a
    function from the record to its successor, together with the list of
    kernel-visible effects it performed ([printk] lines, frames handed to
    [hid_hw_raw_request]).  Integers of type [int] are [Z]; [char] arrays
    are lists of [ascii] of the declared length.  Answers of the kernel
    that a function depends on (the result of [hid_parse], of
    [hid_hw_raw_request], of each [copy_to_user]) are arguments of its
    model.  [circ_buffer_write] and [device_read] hold [circ_mutex] from
    their first to their last access of the ring, so each call is one
    step. *)

From Stdlib Require Import ZArith List String Ascii Bool Lia.
From Stdlib Require Import DecimalString DecimalPos DecimalN.
Import ListNotations.
Open Scope Z_scope.

(** ** C arithmetic used by the driver *)

Module C.

(** [int % int] truncates towards zero. *)
Definition rem (a b : Z) : Z := Z.rem a b.

(** Conversion to [size_t] (64 bit). *)
Definition to_size_t (a : Z) : Z := a mod 2 ^ 64.

Definition INT_MAX : Z := 2147483647.

(** Errno values of the kernel headers. *)
Definition EFAULT : Z := 14.
Definition ENODEV : Z := 19.
Definition ENOTTY : Z := 25.

(** [_IO(type, nr)] of [asm-generic/ioctl.h]: no direction, no size. *)
Definition _IO (type nr : Z) : Z := Z.lor (Z.shiftl type 8) nr.

End C.

(** ** Character arrays and the kernel's [snprintf] *)

Definition NUL : ascii := Ascii.zero.
Definition NL : ascii := "010"%char.

(** [store buf off cs]: the array [buf] after [buf[off + i] = cs[i]] for
    every index of [cs] that lies inside the array. *)
Fixpoint store (buf : list ascii) (off : nat) (cs : list ascii) : list ascii :=
  match buf with
  | [] => []
  | b :: bs =>
      match off with
      | S o => b :: store bs o cs
      | O =>
          match cs with
          | [] => b :: bs
          | c :: cs' => c :: store bs O cs'
          end
      end
  end.

(** [snprintf(buf + off, size, ...)] where the formatted text is [s]: at
    most [size - 1] characters of [s] and a terminating NUL are stored, the
    length of the whole of [s] is returned.  The kernel's [vsnprintf]
    refuses a [size] above [INT_MAX] and returns 0. *)
Definition snprintf (buf : list ascii) (off : Z) (size : Z) (s : string)
  : list ascii * Z :=
  if size >? C.INT_MAX then (buf, 0)
  else if size =? 0 then (buf, Z.of_nat (String.length s))
  else
    let kept := firstn (Z.to_nat (size - 1)) (list_ascii_of_string s) in
    (store buf (Z.to_nat off) (kept ++ [NUL]), Z.of_nat (String.length s)).

(** Decimal digits of a non-negative number, as [%u] and [%d] print them. *)
Definition digit (d : Z) : ascii := ascii_of_nat (48 + Z.to_nat d).

Fixpoint put_dec (fuel : nat) (n : Z) (acc : string) : string :=
  match fuel with
  | O => acc
  | S f =>
      let acc' := String (digit (n mod 10)) acc in
      if n / 10 =? 0 then acc' else put_dec f (n / 10) acc'
  end.

(** An [unsigned int] has at most ten decimal digits. *)
Definition fmt_u (n : Z) : string := put_dec 10 n EmptyString.

(** ** The driver's static variables *)

Definition CIRC_BUFFER_SIZE : Z := 1024.

Definition WIIMOTE_IOCTL_REQUEST_STATUS : Z := C._IO 87 1.   (* _IO('W', 1) *)

(** A [struct hid_device *] that is not NULL. *)
Definition hid_device := positive.

Record driver : Type := mkDriver {
  circ_buffer : list ascii;             (* char circ_buffer[CIRC_BUFFER_SIZE] *)
  head : Z;
  tail : Z;
  wii_hid_dev : option hid_device;      (* None is NULL *)
  wii_connected : Z;
  wii_last_battery : Z                  (* -1 means unknown *)
}.

(** The state after module load. *)
Definition driver_init (garbage : list ascii) : driver :=
  mkDriver garbage 0 0 None 0 (-1).

(** ** Effects visible outside the driver *)

(** One constructor per [printk] call of the source, with the arguments of
    its format. *)
Inductive printk_msg : Type :=
| MsgBufferFull                      (* "circular buffer full, dropping data" *)
| MsgTooShort                        (* "Report too short for mapping" *)
| MsgReceived (data : list Z)        (* "wii_raw_event: received report: ..." *)
| MsgBatteryDetected                 (* "Battery status report detected." *)
| MsgSendingRequest                  (* "Sending battery status request ..." *)
| MsgRequestReturned (ret : Z)       (* "Battery status request returned: %d" *)
| MsgRequestFailed (ret : Z)         (* "failed to send status request, error %d" *)
| MsgNoDevice                        (* "HID device not available ..." *)
| MsgConnected                       (* "Wii remote connected" *)
| MsgDisconnected.                   (* "Wii remote disconnected" *)

Inductive hid_report_type : Type := HID_INPUT_REPORT | HID_OUTPUT_REPORT | HID_FEATURE_REPORT.
Inductive hid_class_request : Type := HID_REQ_GET_REPORT | HID_REQ_SET_REPORT.

Inductive effect : Type :=
| Printk (m : printk_msg)
| HidHwRawRequest (hdev : hid_device) (reportnum : Z) (frame : list Z)
                  (len : Z) (rtype : hid_report_type) (reqtype : hid_class_request).

(** Assignments to single statics. *)
Definition set_ring (buf : list ascii) (h : Z) (d : driver) : driver :=
  mkDriver buf h (tail d) (wii_hid_dev d) (wii_connected d) (wii_last_battery d).

Definition set_tail (t : Z) (d : driver) : driver :=
  mkDriver (circ_buffer d) (head d) t (wii_hid_dev d) (wii_connected d) (wii_last_battery d).

Definition set_last_battery (b : Z) (d : driver) : driver :=
  mkDriver (circ_buffer d) (head d) (tail d) (wii_hid_dev d) (wii_connected d) b.

Definition set_device (hdev : option hid_device) (c : Z) (d : driver) : driver :=
  mkDriver (circ_buffer d) (head d) (tail d) hdev c (wii_last_battery d).

(** ** circ_buffer_write *)

Definition set_slot (buf : list ascii) (i : Z) (c : ascii) : list ascii :=
  store buf (Z.to_nat i) [c].

Definition slot (buf : list ascii) (i : Z) : ascii := nth (Z.to_nat i) buf NUL.

(** The body of the [for] loop runs once per byte of [data]; [break] leaves
    the remaining bytes untouched. *)
Fixpoint circ_buffer_write (data : list ascii) (d : driver) : driver * list effect :=
  match data with
  | [] => (d, [])
  | c :: rest =>
      let next := C.rem (head d + 1) CIRC_BUFFER_SIZE in
      if next =? tail d then (d, [Printk MsgBufferFull])
      else
        circ_buffer_write rest (set_ring (set_slot (circ_buffer d) (head d) c) next d)
  end.

(** ** perform_input_mapping *)

Definition mapping_output_size : Z := 256.

(** [if (byte & mask) len += snprintf(mapping_output + len, sizeof - len, name)] *)
Definition map_button (byte mask : Z) (name : string) (st : list ascii * Z)
  : list ascii * Z :=
  let '(mapping_output, len) := st in
  if Z.land byte mask =? 0 then st
  else
    let '(out, n) := snprintf mapping_output len
                       (C.to_size_t (mapping_output_size - len)) name in
    (out, len + n).

(** The text handed to [circ_buffer_write]: the array and [len] at the call.
    [mapping_output] is the uninitialised stack array on entry. *)
Definition format_buttons (mapping_output : list ascii) (report_id btn_byte1 btn_byte2 : Z)
  : list ascii * Z :=
  let len := 0 in
  let '(out, n) := snprintf mapping_output len
                     (C.to_size_t (mapping_output_size - len))
                     ("Report: ID=" ++ fmt_u report_id ++ ", ") in
  let st := (out, len + n) in
  let st := map_button btn_byte1 1 "Dpad_Right " st in
  let st := map_button btn_byte1 2 "Dpad_Left " st in
  let st := map_button btn_byte1 4 "Dpad_Down " st in
  let st := map_button btn_byte1 8 "Dpad_Up " st in
  let st := map_button btn_byte1 16 "Plus " st in
  let st := map_button btn_byte1 32 "Minus " st in
  let st := map_button btn_byte1 64 "Home " st in
  let st := map_button btn_byte2 1 "A " st in
  let st := map_button btn_byte2 2 "B " st in
  let st := map_button btn_byte2 4 "1 " st in
  let st := map_button btn_byte2 8 "2 " st in
  let '(out, len) := st in
  let '(out, len) :=
    if len =? 0
    then snprintf out 0 (C.to_size_t mapping_output_size) "No buttons pressed"
    else (out, len) in
  if C.to_size_t len <? C.to_size_t (mapping_output_size - 1)
  then (store (store out (Z.to_nat len) [NL]) (Z.to_nat (len + 1)) [NUL], len + 1)
  else (out, len).

(** The first [len] characters of the array, as [circ_buffer_write] reads them. *)
Definition chars (st : list ascii * Z) : list ascii :=
  firstn (Z.to_nat (snd st)) (fst st).

Definition perform_input_mapping (mapping_output : list ascii) (data : list Z) (d : driver)
  : driver * list effect :=
  let size := Z.of_nat (List.length data) in
  if size <? 3 then (d, [Printk MsgTooShort])
  else
    let report_id := nth 0 data 0 in
    let btn_byte1 := nth 1 data 0 in
    let btn_byte2 := nth 2 data 0 in
    circ_buffer_write (chars (format_buttons mapping_output report_id btn_byte1 btn_byte2)) d.

(** ** device_read *)

(** [user_ok i] tells whether [copy_to_user(buf + i, ..., 1)] succeeds.  The
    bytes stored at [buf], [buf + 1], ... are collected in [out].  The loop
    runs while [bytes_copied < count], so it is structural in
    [count - bytes_copied]. *)
Fixpoint device_read_loop (user_ok : nat -> bool) (remaining : nat)
    (bytes_copied : nat) (out : list ascii) (d : driver)
  : Z * list ascii * driver :=
  match remaining with
  | O => (Z.of_nat bytes_copied, out, d)
  | S remaining' =>
      if tail d =? head d then (Z.of_nat bytes_copied, out, d)
      else if user_ok bytes_copied then
        device_read_loop user_ok remaining' (S bytes_copied)
          (out ++ [slot (circ_buffer d) (tail d)])
          (set_tail (C.rem (tail d + 1) CIRC_BUFFER_SIZE) d)
      else (- C.EFAULT, out, d)
  end.

Definition device_read (user_ok : nat -> bool) (count : nat) (d : driver)
  : Z * list ascii * driver :=
  device_read_loop user_ok count 0 [] d.

(** ** device_ioctl *)

(** [hid_ret] is what [hid_hw_raw_request] returns if it is called. *)
Definition device_ioctl (cmd : Z) (hid_ret : Z) (d : driver) : Z * driver * list effect :=
  if cmd =? WIIMOTE_IOCTL_REQUEST_STATUS then
    match wii_hid_dev d with
    | Some hdev =>
        let status_request := [21; 0] in                (* { 0x15, 0x00 } *)
        let ret := hid_ret in
        (ret, d,
         [Printk MsgSendingRequest;
          HidHwRawRequest hdev (nth 0 status_request 0) status_request 2
                          HID_OUTPUT_REPORT HID_REQ_SET_REPORT;
          Printk (MsgRequestReturned ret)]
         ++ (if ret <? 0 then [Printk (MsgRequestFailed ret)] else []))
    | None => (- C.ENODEV, d, [Printk MsgNoDevice])
    end
  else (- C.ENOTTY, d, []).

(** ** wii_raw_event *)

Definition fmt_d (n : Z) : string :=
  if n <? 0 then String "-" (fmt_u (- n)) else fmt_u n.

Definition battery_output_size : Z := 64.

(** The uninitialised stack arrays of one call. *)
Record stack : Type := mkStack {
  mapping_output : list ascii;          (* char mapping_output[256] *)
  battery_output : list ascii           (* char battery_output[64] *)
}.

Definition format_battery (battery_output : list ascii) (level : Z) : list ascii * Z :=
  snprintf battery_output 0 (C.to_size_t battery_output_size)
           ("Battery: " ++ fmt_d level ++ String NL EmptyString).

Definition wii_raw_event (stk : stack) (data : list Z) (d : driver)
  : Z * driver * list effect :=
  let size := Z.of_nat (List.length data) in
  let received := [Printk (MsgReceived data)] in
  if (size >? 0) && (nth 0 data 0 =? 32) then           (* data[0] == 0x20 *)
    if size >=? 2 then
      let text := format_battery (battery_output stk) (nth 1 data 0) in
      let '(d', fx) := circ_buffer_write (chars text) (set_last_battery (nth 1 data 0) d) in
      (0, d', received ++ [Printk MsgBatteryDetected] ++ fx)
    else (0, d, received ++ [Printk MsgBatteryDetected])
  else
    let '(d', fx) := perform_input_mapping (mapping_output stk) data d in
    (0, d', received ++ fx).

(** ** wii_probe and wii_remove *)

(** [parse_ret] and [start_ret] are the results of [hid_parse] and
    [hid_hw_start]. *)
Definition wii_probe (hdev : hid_device) (parse_ret start_ret : Z) (d : driver)
  : Z * driver * list effect :=
  if negb (parse_ret =? 0) then (parse_ret, d, [])
  else if negb (start_ret =? 0) then (start_ret, d, [])
  else (0, set_device (Some hdev) 1 d, [Printk MsgConnected]).

Definition wii_remove (hdev : hid_device) (d : driver) : driver * list effect :=
  (set_device None 0 d, [Printk MsgDisconnected]).

(** ** The driver as a transition system *)

(** The calls the kernel can make into the loaded module, with the answers
    of the environment they depend on. *)
Inductive event : Type :=
| EvProbe (hdev : hid_device) (parse_ret start_ret : Z)
| EvRemove (hdev : hid_device)
| EvRawEvent (stk : stack) (data : list Z)
| EvRead (user_ok : nat -> bool) (count : nat)
| EvIoctl (cmd : Z) (hid_ret : Z).

Definition step (d : driver) (e : event) : driver :=
  match e with
  | EvProbe hdev parse_ret start_ret => snd (fst (wii_probe hdev parse_ret start_ret d))
  | EvRemove hdev => fst (wii_remove hdev d)
  | EvRawEvent stk data => snd (fst (wii_raw_event stk data d))
  | EvRead user_ok count => snd (device_read user_ok count d)
  | EvIoctl cmd hid_ret => snd (fst (device_ioctl cmd hid_ret d))
  end.

Definition run (d : driver) (evs : list event) : driver := fold_left step evs d.

(** ** Well-formedness and the unread contents of the ring *)

Definition stack_wf (stk : stack) : Prop :=
  List.length (mapping_output stk) = 256%nat /\ List.length (battery_output stk) = 64%nat.

Definition is_u8 (b : Z) : Prop := 0 <= b < 256.

Definition ring_wf (d : driver) : Prop :=
  Z.of_nat (List.length (circ_buffer d)) = CIRC_BUFFER_SIZE /\
  0 <= head d < CIRC_BUFFER_SIZE /\ 0 <= tail d < CIRC_BUFFER_SIZE.

(** Number of bytes written and not yet read. *)
Definition used (d : driver) : Z := (head d - tail d) mod CIRC_BUFFER_SIZE.

(** The bytes from the read cursor up to the write cursor, oldest first. *)
Definition unread (d : driver) : list ascii :=
  map (fun k => slot (circ_buffer d) ((tail d + Z.of_nat k) mod CIRC_BUFFER_SIZE))
      (seq 0 (Z.to_nat (used d))).

(** ** The formatted entry as the specification words it *)

(** Byte (1 or 2), bit and name of the eleven buttons, in rendering order. *)
Definition button_table : list (nat * Z * string) :=
  [ (1%nat, 0, "Dpad_Right"); (1%nat, 1, "Dpad_Left"); (1%nat, 2, "Dpad_Down");
    (1%nat, 3, "Dpad_Up"); (1%nat, 4, "Plus"); (1%nat, 5, "Minus"); (1%nat, 6, "Home");
    (2%nat, 0, "A"); (2%nat, 1, "B"); (2%nat, 2, "1"); (2%nat, 3, "2") ]%string.

Definition button_flag (byte1 byte2 : Z) (b : nat * Z * string) : bool :=
  let '(which, bit, _) := b in
  Z.testbit (if Nat.eqb which 1 then byte1 else byte2) bit.

Definition button_name (b : nat * Z * string) : string := snd b.

(** The names of the set bits, each followed by a space. *)
Definition pressed_names (byte1 byte2 : Z) : list ascii :=
  List.concat (map (fun b => list_ascii_of_string (button_name b ++ " "))
              (filter (button_flag byte1 byte2) button_table)).

Definition all_flags_false (byte1 byte2 : Z) : bool :=
  forallb (fun b => negb (button_flag byte1 byte2 b)) button_table.

(** Unsigned decimal rendering by the standard library's printer. *)
Definition decimal (n : Z) : string :=
  DecimalString.NilZero.string_of_uint (N.to_uint (Z.to_N n)).

Definition button_entry (report_id byte1 byte2 : Z) : list ascii :=
  list_ascii_of_string ("Report: ID=" ++ decimal report_id ++ ", ")
  ++ pressed_names byte1 byte2 ++ [NL].

Definition battery_entry (level : Z) : list ascii :=
  list_ascii_of_string ("Battery: " ++ decimal level) ++ [NL].

(** ** The classifier of the specification *)

Inductive reject_reason : Type := TooShort.

Inductive DecodedEvent : Type :=
| ButtonSnapshot (report_id : Z) (flags : list bool)   (* in the order of [button_table] *)
| StatusSnapshot (battery_level : Z)
| Rejected (reason : reject_reason).

(** [decode] as the specification words it: a status report needs the id
    0x20 and two bytes, anything else below three bytes is too short, the
    rest is a button report. *)
Definition spec_decode (raw : list Z) : DecodedEvent :=
  if (0 <? List.length raw)%nat && (nth 0 raw 0 =? 32) && (2 <=? List.length raw)%nat
  then StatusSnapshot (nth 1 raw 0)
  else if (List.length raw <? 3)%nat then Rejected TooShort
  else ButtonSnapshot (nth 0 raw 0)
                      (map (button_flag (nth 1 raw 0) (nth 2 raw 0)) button_table).

(** ** Predicates on character arrays *)

(** [text] is what the array holds in its first [len] cells. *)
Definition holds (size : nat) (st : list ascii * Z) (text : list ascii) : Prop :=
  List.length (fst st) = size /\
  snd st = Z.of_nat (List.length text) /\
  firstn (List.length text) (fst st) = text.

Definition within (st : list ascii * Z) (text : list ascii) (bound : nat) : Prop :=
  holds 256 st text /\ (List.length text <= bound)%nat.

(** ** Steps and measures of the ring *)

(** One iteration of the write loop that stores a byte. *)
Definition push (c : ascii) (d : driver) : driver :=
  set_ring (set_slot (circ_buffer d) (head d) c)
           (C.rem (head d + 1) CIRC_BUFFER_SIZE) d.

(** One iteration of the read loop that consumes a byte. *)
Definition pop (d : driver) : driver :=
  set_tail (C.rem (tail d + 1) CIRC_BUFFER_SIZE) d.

(** Free cells: one cell always stays empty to tell full from empty. *)
Definition room (d : driver) : Z := CIRC_BUFFER_SIZE - 1 - used d.

(** The statics that [circ_buffer_write] and [device_read] never assign. *)
Definition device_fields (d : driver) : option hid_device * Z * Z :=
  (wii_hid_dev d, wii_connected d, wii_last_battery d).

(** What a run of the loop of [device_read] does: it consumes some number
    [k] of bytes and then stops, either regularly or on a failed copy. *)
Definition drained (user_ok : nat -> bool) (remaining bytes_copied : nat)
    (out : list ascii) (d : driver) (r : Z * list ascii * driver) (k : nat) : Prop :=
  let '(ret, out', d') := r in
  (k <= remaining)%nat /\ Z.of_nat k <= used d /\
  (forall i, (bytes_copied <= i < bytes_copied + k)%nat -> user_ok i = true) /\
  out' = out ++ firstn k (unread d) /\
  unread d' = skipn k (unread d) /\
  used d' = used d - Z.of_nat k /\
  ring_wf d' /\ head d' = head d /\ device_fields d' = device_fields d /\
  ((ret = Z.of_nat (bytes_copied + k) /\ (k = remaining \/ Z.of_nat k = used d))
   \/ (ret = - C.EFAULT /\ (k < remaining)%nat /\ Z.of_nat k < used d /\
       user_ok (bytes_copied + k)%nat = false)).

(** A run of single-byte writes, one call of [circ_buffer_write] per byte. *)
Definition write_bytes (cs : list ascii) (d : driver) : driver :=
  fold_left (fun d c => fst (circ_buffer_write [c] d)) cs d.

(** Bytes of [data] that entered the ring, and bytes that did not. *)
Definition n_written (data : list ascii) (d : driver) : Z :=
  Z.of_nat (List.length (unread (fst (circ_buffer_write data d))))
  - Z.of_nat (List.length (unread d)).

Definition n_dropped (data : list ascii) (d : driver) : Z :=
  Z.of_nat (List.length data) - n_written data d.

(** The caller of [circ_buffer_write] gets no return value; what it can
    observe of a call is the text it passed and the kernel log.  The counts
    are exposed if they can be read off these. *)
Definition write_outcome_exposes_counts : Prop :=
  exists report : list ascii -> list effect -> Z * Z,
    forall d data, ring_wf d ->
      report data (snd (circ_buffer_write data d)) = (n_written data d, n_dropped data d).

(** ** Transitions of the connection state *)

(** A probe that attaches: both kernel calls succeeded. *)
Definition attaches (e : event) : bool :=
  match e with
  | EvProbe _ parse_ret start_ret => (parse_ret =? 0) && (start_ret =? 0)
  | _ => false
  end.

Definition detaches (e : event) : bool :=
  match e with
  | EvRemove _ => true
  | _ => false
  end.

(** The transitions of the connection state among the events, oldest first. *)
Definition transitions (evs : list event) : list event :=
  filter (fun e => attaches e || detaches e) evs.

(** The last transition, if there is one, is a detach. *)
Definition last_is_detach (evs : list event) : bool :=
  match rev (transitions evs) with
  | e :: _ => detaches e
  | [] => false
  end.

Definition is_request (fx : effect) : bool :=
  match fx with
  | HidHwRawRequest _ _ _ _ _ _ => true
  | Printk _ => false
  end.

(** ** Arithmetic of the cursors *)

Ltac ring_arith :=
  unfold ring_wf, used, C.rem, CIRC_BUFFER_SIZE in *; simpl in *;
  Z.to_euclidean_division_equations; lia.

(** ** Consecutive calls *)

(** One call of [circ_buffer_write] per text, in order. *)
Definition write_all (texts : list (list ascii)) (d : driver) : driver :=
  fold_left (fun d t => fst (circ_buffer_write t d)) texts d.

(** ** wii_proc_show *)

(** [seq_printf] appends the formatted text to the buffer of the
    [seq_file]; the file layer enlarges the buffer and runs [show] again
    when the text does not fit, so the reader gets the whole text. *)
Definition seq_printf (m : list ascii) (s : string) : list ascii :=
  m ++ list_ascii_of_string s.

Definition wii_proc_show (m : list ascii) (d : driver) : Z * list ascii :=
  let m := seq_printf m ("Wii Remote Driver State:" ++ String NL "") in
  let m := seq_printf m ("  Connected: "
                         ++ (if wii_connected d =? 0 then "No" else "Yes")
                         ++ String NL "") in
  let m := seq_printf m ("  Last Battery: " ++ fmt_d (wii_last_battery d)
                         ++ String NL "") in
  (0, m).

(** ** Observations along a trace of calls *)

(** The effects of one call. *)
Definition step_fx (d : driver) (e : event) : list effect :=
  match e with
  | EvProbe hdev parse_ret start_ret => snd (wii_probe hdev parse_ret start_ret d)
  | EvRemove hdev => snd (wii_remove hdev d)
  | EvRawEvent stk data => snd (wii_raw_event stk data d)
  | EvRead _ _ => []
  | EvIoctl cmd hid_ret => snd (device_ioctl cmd hid_ret d)
  end.

Fixpoint run_fx (d : driver) (evs : list event) : list effect :=
  match evs with
  | [] => []
  | e :: evs' => step_fx d e ++ run_fx (step d e) evs'
  end.

(** The level byte of a report that takes the battery path of
    [wii_raw_event] and reaches the assignment of the cache. *)
Definition report_level (e : event) : option Z :=
  match e with
  | EvRawEvent _ data =>
      if (0 <? List.length data)%nat && (nth 0 data 0 =? 32) && (2 <=? List.length data)%nat
      then Some (nth 1 data 0) else None
  | _ => None
  end.

(** The level of the latest such report, [-1] if there is none. *)
Definition last_level (evs : list event) : Z :=
  fold_left (fun level e => match report_level e with
                            | Some l => l
                            | None => level
                            end) evs (-1).

(** The handle after a call, from the handle before it. *)
Definition handle_after (h : option hid_device) (e : event) : option hid_device :=
  match e with
  | EvProbe hdev _ _ => if attaches e then Some hdev else h
  | EvRemove _ => None
  | _ => h
  end.

(** One status frame for every status ioctl issued while a handle is held,
    addressed to that handle. *)
Fixpoint status_frames (h : option hid_device) (evs : list event) : list effect :=
  match evs with
  | [] => []
  | e :: evs' =>
      match e, h with
      | EvIoctl cmd _, Some hdev =>
          if cmd =? WIIMOTE_IOCTL_REQUEST_STATUS
          then [HidHwRawRequest hdev 21 [21; 0] 2 HID_OUTPUT_REPORT HID_REQ_SET_REPORT]
          else []
      | _, _ => []
      end ++ status_frames (handle_after h e) evs'
  end.

(** The text [wii_raw_event] passes to [circ_buffer_write], empty when it
    makes no such call. *)
Definition raw_event_text (stk : stack) (data : list Z) : list ascii :=
  let size := Z.of_nat (List.length data) in
  if (size >? 0) && (nth 0 data 0 =? 32) then
    if size >=? 2 then chars (format_battery (battery_output stk) (nth 1 data 0)) else []
  else if size <? 3 then []
  else chars (format_buttons (mapping_output stk) (nth 0 data 0)
                             (nth 1 data 0) (nth 2 data 0)).

(** Bytes a call copies to the user (also those copied before a failing
    copy), and bytes a call stores in the ring. *)
Definition bytes_out (d : driver) (e : event) : list ascii :=
  match e with
  | EvRead user_ok count => snd (fst (device_read user_ok count d))
  | _ => []
  end.

Definition bytes_in (d : driver) (e : event) : list ascii :=
  match e with
  | EvRawEvent stk data => firstn (Z.to_nat (room d)) (raw_event_text stk data)
  | _ => []
  end.

Fixpoint delivered (d : driver) (evs : list event) : list ascii :=
  match evs with
  | [] => []
  | e :: evs' => bytes_out d e ++ delivered (step d e) evs'
  end.

Fixpoint stored (d : driver) (evs : list event) : list ascii :=
  match evs with
  | [] => []
  | e :: evs' => bytes_in d e ++ stored (step d e) evs'
  end.

(** The connection flag and the handle tell the same. *)
Definition linked (d : driver) : Prop :=
  (wii_hid_dev d = None /\ wii_connected d = 0) \/
  (exists hdev, wii_hid_dev d = Some hdev /\ wii_connected d = 1).

(** A device has attached and has not been removed since. *)
Definition attached (evs : list event) : bool :=
  existsb attaches evs && negb (last_is_detach evs).

Definition levels_are_bytes (evs : list event) : Prop :=
  Forall (fun e => forall l, report_level e = Some l -> is_u8 l) evs.

(** ** Lines *)

(** No character of the text is a newline. *)
Definition no_newline (l : list ascii) : bool :=
  forallb (fun c => negb (Ascii.eqb c NL)) l.

(** ** Reading a button line back *)

(** The character [c] does not occur in the text. *)
Definition lacks (c : ascii) (l : list ascii) : bool :=
  forallb (fun x => negb (Ascii.eqb x c)) l.

(** The names of the flags that are set, as [pressed_names] renders them,
    from the list of the eleven flags. *)
Definition render_names (flags : list bool) : list ascii :=
  List.concat (map (fun fb : bool * (nat * Z * string) =>
                      if fst fb then list_ascii_of_string (button_name (snd fb) ++ " ")
                      else [])
                   (combine flags button_table)).

(** The words of a text, each ended by a space. *)
Fixpoint words (word : list ascii) (l : list ascii) : list (list ascii) :=
  match l with
  | [] => []
  | c :: l' =>
      if Ascii.eqb c " " then rev word :: words [] l'
      else words (c :: word) l'
  end.

(** The flags whose names are among the words. *)
Definition names_to_flags (l : list ascii) : list bool :=
  map (fun b => existsb (fun w => String.eqb (string_of_list_ascii w) (button_name b))
                        (words [] l))
      button_table.

(** All lists of [n] flags. *)
Fixpoint all_flags (n : nat) : list (list bool) :=
  match n with
  | O => [[]]
  | S n' => map (cons true) (all_flags n') ++ map (cons false) (all_flags n')
  end.

Definition flags_eqb (f g : list bool) : bool :=
  (List.length f =? List.length g)%nat
  && forallb (fun p : bool * bool => Bool.eqb (fst p) (snd p)) (combine f g).

(** ** wii_init and wii_exit *)

(** Answer of a kernel call that returns 0 or a negative errno (for
    [class_create]: a valid pointer or [ERR_PTR] of a negative errno). *)
Inductive kresult : Type := KOk | KErr (errno : positive).

Definition kret (r : kresult) : Z :=
  match r with
  | KOk => 0
  | KErr errno => - Z.pos errno
  end.

Definition ENOMEM : Z := 12.

(** [dev_t] of [linux/kdev_t.h]: the minor number in the low 20 bits. *)
Definition MINORBITS : Z := 20.
Definition MAJOR (dev : Z) : Z := Z.shiftr dev MINORBITS.
Definition MINOR (dev : Z) : Z := Z.land dev (2 ^ MINORBITS - 1).
Definition MKDEV (ma mi : Z) : Z := Z.lor (Z.shiftl ma MINORBITS) mi.

(** What the module registers with the kernel. *)
Inductive resource : Type :=
| ProcEntry                      (* /proc/wii_remote *)
| ChrdevRegion (dev : Z)
| Cdev (dev : Z)
| Class                          (* class "wii_remote" *)
| Device (dev : Z)               (* /dev/wii_remote *)
| HidDriver.

(** The calls of [wii_init] and [wii_exit] that register or release
    something, with the kernel's answer for those that can fail. *)
Inductive kcall : Type :=
| Acquired (r : resource)
| Refused (r : resource) (err : Z)
| Released (r : resource)
| Logged (text : string).

(** The answers [wii_init] gets. *)
Record init_answers : Type := mkAnswers {
  proc_create : bool;                   (* false is NULL *)
  alloc_chrdev_region : kresult;
  allocated_dev : Z;                    (* the [dev] stored on success *)
  cdev_add : kresult;
  class_create : kresult;
  device_create : bool;                 (* the result is not looked at *)
  hid_register_driver : kresult
}.

(** The statics of the module that [wii_init] and [wii_exit] share. *)
Record module_statics : Type := mkStatics {
  wii_proc_entry : bool;                (* false is NULL *)
  major : Z;
  wii_class : kresult
}.

Definition wii_init (a : init_answers) (s : module_statics)
  : Z * module_statics * list kcall :=
  let s := mkStatics (proc_create a) (major s) (wii_class s) in
  if negb (wii_proc_entry s) then
    (- ENOMEM, s,
     [Refused ProcEntry 0; Logged "failed to create /proc/wii_remote"])
  else
    let t := [Acquired ProcEntry] in
    let ret := kret (alloc_chrdev_region a) in
    let dev := allocated_dev a in
    if ret <? 0 then
      (ret, s, t ++ [Refused (ChrdevRegion dev) ret;
                     Logged "failed to allocate char device region"])
    else
      let t := t ++ [Acquired (ChrdevRegion dev)] in
      let s := mkStatics (wii_proc_entry s) (MAJOR dev) (wii_class s) in
      let ret := kret (cdev_add a) in
      if ret <? 0 then
        (ret, s, t ++ [Refused (Cdev dev) ret; Released (ChrdevRegion dev);
                       Logged "failed to add cdev"])
      else
        let t := t ++ [Acquired (Cdev dev)] in
        let s := mkStatics (wii_proc_entry s) (major s) (class_create a) in
        match wii_class s with
        | KErr _ =>
            (kret (wii_class s), s,
             t ++ [Refused Class (kret (wii_class s)); Released (Cdev dev);
                   Released (ChrdevRegion dev); Logged "failed to create class"])
        | KOk =>
            let t := t ++ [Acquired Class;
                           if device_create a then Acquired (Device dev)
                           else Refused (Device dev) 0] in
            let ret := kret (hid_register_driver a) in
            if negb (ret =? 0) then
              (ret, s,
               t ++ [Refused HidDriver ret; Released (Device dev); Released Class;
                     Released (Cdev dev); Released (ChrdevRegion dev);
                     Logged "failed to register HID driver"])
            else
              (0, s, t ++ [Acquired HidDriver; Logged "driver loaded"])
        end.

Definition wii_exit (s : module_statics) : module_statics * list kcall :=
  let dev := MKDEV (major s) 0 in
  let '(s, t) :=
    if wii_proc_entry s
    then (mkStatics false (major s) (wii_class s), [Released ProcEntry])
    else (s, []) in
  (s, t ++ [Released HidDriver; Released (Device dev); Released Class;
            Released (Cdev dev); Released (ChrdevRegion dev);
            Logged "driver unloaded"]).

Definition resource_eqb (r r' : resource) : bool :=
  match r, r' with
  | ProcEntry, ProcEntry | Class, Class | HidDriver, HidDriver => true
  | ChrdevRegion d, ChrdevRegion d' | Cdev d, Cdev d' | Device d, Device d' => d =? d'
  | _, _ => false
  end.

(** The resources registered after a sequence of calls, latest first;
    releasing what is not registered changes nothing. *)
Definition live_after (held : list resource) (c : kcall) : list resource :=
  match c with
  | Acquired r => r :: held
  | Released r => filter (fun r' => negb (resource_eqb r r')) held
  | Refused _ _ | Logged _ => held
  end.

Definition live (calls : list kcall) : list resource :=
  fold_left live_after calls [].

(** The statics after the module image is loaded. *)
Definition statics_init : module_statics := mkStatics false 0 KOk.

Definition all_succeed (a : init_answers) : bool :=
  proc_create a
  && match alloc_chrdev_region a, cdev_add a, class_create a, hid_register_driver a with
     | KOk, KOk, KOk, KOk => true
     | _, _, _, _ => false
     end.

(** ** The skeleton driver in the second part of the source file *)

(** The older driver that reports the buttons as key events of an input
    device instead of text.  Its functions share names with the ones above,
    hence the module. *)
Module Skeleton.

Inductive key : Type :=
| KEY_RIGHT | KEY_LEFT | KEY_UP | KEY_DOWN | KEY_KPPLUS | KEY_KPMINUS | KEY_HOME
| KEY_A | KEY_B | KEY_1 | KEY_2.

Inductive event_type : Type := EV_KEY.

(** Initialisation of a [bool] from an [int]. *)
Definition to_bool (x : Z) : bool := negb (x =? 0).

(** The fields of [struct hid_device] that [wii_probe] copies. *)
Record hid_ids : Type := mkIds {
  bus : Z; vendor : Z; product : Z; version : Z
}.

Record input_dev : Type := mkInput {
  name : string;
  id : option hid_ids;
  evbit : list event_type;
  keybit : list key
}.

(** What the HID core knows of the device. *)
Record hid_state : Type := mkHid {
  ids : hid_ids;
  hw_started : bool;
  registered_input : option input_dev;
  drvdata : option input_dev
}.

(** The calls [wii_parse_report] makes, in order, with the input device
    they are made on.  The flags of [PrintkReport] are the [%d] arguments of
    the format. *)
Inductive input_call : Type :=
| PrintkReport (report_id : Z) (flags : list bool)
| InputReportKey (dev : input_dev) (code : key) (value : bool)
| InputSync (dev : input_dev).

(** [hid_get_drvdata(hdev)] is the driver data of the state; the function
    reads [wii->input] from it before it looks at the size, so without
    driver data (NULL) it faults whatever the report is: the result is
    [None] then. *)
Definition wii_parse_report (h : hid_state) (data : list Z)
  : option (Z * list input_call) :=
  match drvdata h with
  | None => None
  | Some in_dev =>
      let size := Z.of_nat (List.length data) in
      if size <? 3 then Some (0, [])
      else
        let report_id := nth 0 data 0 in
        let btn_byte1 := nth 1 data 0 in
        let btn_byte2 := nth 2 data 0 in
        let dpad_right := to_bool (Z.land btn_byte1 1) in
        let dpad_left := to_bool (Z.land btn_byte1 2) in
        let dpad_down := to_bool (Z.land btn_byte1 4) in
        let dpad_up := to_bool (Z.land btn_byte1 8) in
        let btn_plus := to_bool (Z.land btn_byte1 16) in
        let btn_minus := to_bool (Z.land btn_byte1 32) in
        let btn_home := to_bool (Z.land btn_byte1 64) in
        let btn_A := to_bool (Z.land btn_byte2 1) in
        let btn_B := to_bool (Z.land btn_byte2 2) in
        let btn_1 := to_bool (Z.land btn_byte2 4) in
        let btn_2 := to_bool (Z.land btn_byte2 8) in
        Some (0,
         [PrintkReport report_id
            [dpad_right; dpad_left; dpad_up; dpad_down; btn_plus; btn_minus; btn_home;
             btn_A; btn_B; btn_1; btn_2];
          InputReportKey in_dev KEY_RIGHT dpad_right;
          InputReportKey in_dev KEY_LEFT dpad_left;
          InputReportKey in_dev KEY_UP dpad_up;
          InputReportKey in_dev KEY_DOWN dpad_down;
          InputReportKey in_dev KEY_KPPLUS btn_plus;
          InputReportKey in_dev KEY_KPMINUS btn_minus;
          InputReportKey in_dev KEY_HOME btn_home;
          InputReportKey in_dev KEY_A btn_A;
          InputReportKey in_dev KEY_B btn_B;
          InputReportKey in_dev KEY_1 btn_1;
          InputReportKey in_dev KEY_2 btn_2;
          InputSync in_dev])
  end.

(** Answers of the kernel to [wii_probe]. *)
Record probe_answers : Type := mkProbe {
  hid_parse : Z;
  hid_hw_start : Z;
  devm_kzalloc : bool;                       (* false is NULL *)
  devm_input_allocate_device : bool;         (* false is NULL *)
  input_register_device : Z
}.

Definition set_evbit (t : event_type) (i : input_dev) : input_dev :=
  mkInput (name i) (id i) (t :: evbit i) (keybit i).

Definition set_keybit (k : key) (i : input_dev) : input_dev :=
  mkInput (name i) (id i) (evbit i) (k :: keybit i).

Definition wii_probe (a : probe_answers) (h : hid_state) : Z * hid_state :=
  if negb (hid_parse a =? 0) then (hid_parse a, h)
  else if negb (hid_hw_start a =? 0) then (hid_hw_start a, h)
  else
    let h := mkHid (ids h) true (registered_input h) (drvdata h) in
    if negb (devm_kzalloc a) then (- ENOMEM, h)
    else if negb (devm_input_allocate_device a) then (- ENOMEM, h)
    else
      let input := mkInput "Wii Remote" (Some (ids h)) [] [] in
      let input := set_evbit EV_KEY input in
      let input := set_keybit KEY_RIGHT input in
      let input := set_keybit KEY_LEFT input in
      let input := set_keybit KEY_UP input in
      let input := set_keybit KEY_DOWN input in
      let input := set_keybit KEY_KPPLUS input in
      let input := set_keybit KEY_KPMINUS input in
      let input := set_keybit KEY_HOME input in
      let input := set_keybit KEY_A input in
      let input := set_keybit KEY_B input in
      let input := set_keybit KEY_1 input in
      let input := set_keybit KEY_2 input in
      if negb (input_register_device a =? 0) then (input_register_device a, h)
      else (0, mkHid (ids h) true (Some input) (Some input)).

(** [hid_hw_stop]. *)
Definition wii_remove (h : hid_state) : hid_state :=
  mkHid (ids h) false (registered_input h) (drvdata h).

Definition key_eqb (k k' : key) : bool :=
  match k, k' with
  | KEY_RIGHT, KEY_RIGHT | KEY_LEFT, KEY_LEFT | KEY_UP, KEY_UP | KEY_DOWN, KEY_DOWN
  | KEY_KPPLUS, KEY_KPPLUS | KEY_KPMINUS, KEY_KPMINUS | KEY_HOME, KEY_HOME
  | KEY_A, KEY_A | KEY_B, KEY_B | KEY_1, KEY_1 | KEY_2, KEY_2 => true
  | _, _ => false
  end.

(** The values reported for a key, in order. *)
Definition key_values (k : key) (calls : list input_call) : list bool :=
  flat_map (fun c => match c with
                     | InputReportKey _ k' v => if key_eqb k k' then [v] else []
                     | _ => []
                     end) calls.

(** The key of each button, in the order of [button_table]. *)
Definition key_table : list key :=
  [KEY_RIGHT; KEY_LEFT; KEY_DOWN; KEY_UP; KEY_KPPLUS; KEY_KPMINUS; KEY_HOME;
   KEY_A; KEY_B; KEY_1; KEY_2].

Definition reported_keys (calls : list input_call) : list key :=
  flat_map (fun c => match c with
                     | InputReportKey _ k _ => [k]
                     | _ => []
                     end) calls.

End Skeleton.

(** * Properties *)

(** ** The model on concrete inputs *)

Example ioctl_request_code : WIIMOTE_IOCTL_REQUEST_STATUS = 22273.   (* 0x5701 *)
Proof. reflexivity. Qed.

Example format_buttons_all_pressed :
  chars (format_buttons (repeat "z"%char 256) 255 255 255)
  = list_ascii_of_string
      "Report: ID=255, Dpad_Right Dpad_Left Dpad_Down Dpad_Up Plus Minus Home A B 1 2 "
    ++ [NL].
Proof. vm_compute. reflexivity. Qed.

Example format_buttons_high_bits_ignored :
  chars (format_buttons (repeat "z"%char 256) 48 128 240)
  = list_ascii_of_string "Report: ID=48, " ++ [NL].
Proof. vm_compute. reflexivity. Qed.

Example format_battery_full :
  chars (format_battery (repeat "z"%char 64) 255)
  = list_ascii_of_string "Battery: 255" ++ [NL].
Proof. vm_compute. reflexivity. Qed.

(** Two reports arrive, then one read takes both lines in order. *)
Example two_reports_then_read :
  let stk := mkStack (repeat "z"%char 256) (repeat "z"%char 64) in
  let d := run (driver_init (repeat NUL 1024))
               [EvRawEvent stk [32; 90]; EvRawEvent stk [49; 1; 0]] in
  fst (device_read (fun _ => true) 100 d)
  = (39, list_ascii_of_string "Battery: 90" ++ [NL]
         ++ list_ascii_of_string "Report: ID=49, Dpad_Right " ++ [NL]).
Proof. vm_compute. reflexivity. Qed.

Example failed_probe_is_no_transition :
  transitions [EvProbe 1%positive 0 0; EvProbe 2%positive 0 (-5); EvIoctl 22273 0]
  = [EvProbe 1%positive 0 0].
Proof. reflexivity. Qed.

(** ** Arrays *)

Lemma store_length (buf : list ascii) :
  forall off cs, List.length (store buf off cs) = List.length buf.
Proof.
  induction buf as [|b bs IH]; intros off cs; simpl; [reflexivity|].
  destruct off as [|o]; [destruct cs as [|c cs']|]; simpl; auto.
Qed.

Lemma firstn_store (buf : list ascii) :
  forall off cs j,
    (off + List.length cs <= List.length buf)%nat ->
    (j <= List.length cs)%nat ->
    firstn (off + j) (store buf off cs) = firstn off buf ++ firstn j cs.
Proof.
  induction buf as [|b bs IH]; intros off cs j Hfit Hj; simpl in *.
  - assert (off = 0%nat) by lia. assert (j = 0%nat) by lia. subst. reflexivity.
  - destruct off as [|o].
    + destruct cs as [|c cs']; simpl in *.
      * assert (j = 0%nat) by lia. subst. reflexivity.
      * destruct j as [|j']; [reflexivity|]. simpl. f_equal.
        apply (IH 0%nat cs' j'); lia.
    + simpl. f_equal. apply IH; lia.
Qed.

Lemma nth_store_same (buf : list ascii) :
  forall i c, (i < List.length buf)%nat -> nth i (store buf i [c]) NUL = c.
Proof.
  induction buf as [|b bs IH]; intros i c Hi; simpl in *; [lia|].
  destruct i as [|i']; simpl.
  - destruct bs; reflexivity.
  - apply IH. lia.
Qed.

Lemma nth_store_other (buf : list ascii) :
  forall i j c, i <> j -> nth j (store buf i [c]) NUL = nth j buf NUL.
Proof.
  induction buf as [|b bs IH]; intros i j c Hij; simpl; [reflexivity|].
  destruct i as [|i']; destruct j as [|j']; simpl; try congruence.
  - destruct bs; reflexivity.
  - apply IH. congruence.
Qed.

(** ** snprintf inside the array *)

Lemma length_list_ascii (s : string) :
  List.length (list_ascii_of_string s) = String.length s.
Proof. induction s; simpl; congruence. Qed.

Lemma list_ascii_app (s t : string) :
  list_ascii_of_string (s ++ t) = list_ascii_of_string s ++ list_ascii_of_string t.
Proof. induction s; simpl; congruence. Qed.

Lemma holds_chars size st text : holds size st text -> chars st = text.
Proof.
  intros (_ & Hlen & Htext). unfold chars. rewrite Hlen, Nat2Z.id. exact Htext.
Qed.

Lemma snprintf_holds (size : nat) (buf : list ascii) (text : list ascii) (s : string) :
  Z.of_nat size <= C.INT_MAX ->
  holds size (buf, Z.of_nat (List.length text)) text ->
  (List.length text + String.length s < size)%nat ->
  let r := snprintf buf (Z.of_nat (List.length text))
                    (C.to_size_t (Z.of_nat size - Z.of_nat (List.length text))) s in
  snd r = Z.of_nat (String.length s) /\
  holds size (fst r, Z.of_nat (List.length text) + snd r) (text ++ list_ascii_of_string s).
Proof.
  intros Hmax (Hsize & _ & Htext) Hfit. simpl in Hsize, Htext.
  unfold snprintf, C.to_size_t, C.INT_MAX in *.
  rewrite Z.mod_small by lia.
  destruct (Z.gtb_spec (Z.of_nat size - Z.of_nat (List.length text)) 2147483647) as [Hbig|_];
    [lia|].
  destruct (Z.eqb_spec (Z.of_nat size - Z.of_nat (List.length text)) 0) as [Hz|_]; [lia|].
  cbv zeta. simpl fst; simpl snd. split; [reflexivity|].
  rewrite Nat2Z.id.
  rewrite firstn_all2 by (rewrite length_list_ascii; lia).
  unfold holds; simpl fst; simpl snd.
  rewrite store_length, length_app, length_list_ascii.
  repeat split; [assumption|lia|].
  rewrite <- (length_list_ascii s).
  rewrite (firstn_store buf (List.length text) (list_ascii_of_string s ++ [NUL])
             (List.length (list_ascii_of_string s))).
  - rewrite Htext, firstn_app, Nat.sub_diag, firstn_all. simpl. now rewrite app_nil_r.
  - rewrite length_app, length_list_ascii. simpl. lia.
  - rewrite length_app. lia.
Qed.

(** ** Decimal digits of a byte *)

Lemma u8_forallb (f : Z -> bool) :
  forallb f (map Z.of_nat (seq 0 256)) = true -> forall n, is_u8 n -> f n = true.
Proof.
  intros Hall n Hn. rewrite forallb_forall in Hall. apply Hall.
  apply in_map_iff. exists (Z.to_nat n). unfold is_u8 in Hn.
  split; [lia|]. apply in_seq. lia.
Qed.

Lemma fmt_u_decimal (n : Z) : is_u8 n -> fmt_u n = decimal n.
Proof.
  intros Hn. apply String.eqb_eq.
  apply (u8_forallb (fun k => String.eqb (fmt_u k) (decimal k))); [|exact Hn].
  vm_compute. reflexivity.
Qed.

Lemma fmt_d_decimal (n : Z) : is_u8 n -> fmt_d n = decimal n.
Proof.
  intros Hn. unfold fmt_d. destruct (Z.ltb_spec n 0) as [Hneg|_].
  - unfold is_u8 in Hn. lia.
  - now apply fmt_u_decimal.
Qed.

Lemma decimal_length (n : Z) : is_u8 n -> (1 <= String.length (decimal n) <= 3)%nat.
Proof.
  intros Hn.
  assert (H : ((1 <=? String.length (decimal n)) && (String.length (decimal n) <=? 3))%nat = true).
  { apply (u8_forallb (fun k => ((1 <=? String.length (decimal k))
                                 && (String.length (decimal k) <=? 3))%nat)); [|exact Hn].
    vm_compute. reflexivity. }
  apply andb_true_iff in H. destruct H as [H1 H2].
  apply Nat.leb_le in H1. apply Nat.leb_le in H2. lia.
Qed.

(** ** Bit masks *)

Lemma land_pow2 (b k : Z) :
  0 <= k -> Z.land b (2 ^ k) = if Z.testbit b k then 2 ^ k else 0.
Proof.
  intros Hk. apply Z.bits_inj'. intros n Hn.
  rewrite Z.land_spec, Z.pow2_bits_eqb by assumption.
  destruct (Z.eqb_spec k n) as [->|Hne].
  - destruct (Z.testbit b n) eqn:Hb; simpl.
    + rewrite Z.pow2_bits_eqb, Z.eqb_refl by assumption. reflexivity.
    + now rewrite Z.bits_0.
  - rewrite andb_false_r. destruct (Z.testbit b k).
    + rewrite Z.pow2_bits_eqb by assumption. symmetry. now apply Z.eqb_neq.
    + now rewrite Z.bits_0.
Qed.

Lemma mask_test (b k : Z) :
  0 <= k -> (Z.land b (2 ^ k) =? 0) = negb (Z.testbit b k).
Proof.
  intros Hk. rewrite land_pow2 by assumption.
  destruct (Z.testbit b k); simpl; [|reflexivity].
  apply Z.eqb_neq. pose proof (Z.pow_pos_nonneg 2 k). lia.
Qed.

(** ** The text built by perform_input_mapping *)

Lemma map_button_within (byte k : Z) (name : string) st text bound :
  0 <= k ->
  within st text bound ->
  (bound + String.length name < 256)%nat ->
  within (map_button byte (2 ^ k) name st)
         (text ++ if Z.testbit byte k then list_ascii_of_string name else [])
         (bound + String.length name).
Proof.
  intros Hk [Hholds Hbound] Hfit. destruct st as [buf len].
  unfold map_button. rewrite mask_test by assumption.
  destruct (Z.testbit byte k); simpl negb; cbv iota.
  - pose proof Hholds as (_ & Hlen & _). simpl in Hlen. subst len.
    destruct (snprintf_holds 256 buf text name) as [Hn Hh];
      [unfold C.INT_MAX; lia | exact Hholds | lia |].
    unfold mapping_output_size.
    change 256 with (Z.of_nat 256) at 1.
    destruct (snprintf buf _ _ name) as [out n]. simpl in Hn, Hh. split.
    + exact Hh.
    + rewrite length_app, length_list_ascii. lia.
  - rewrite app_nil_r. split; [assumption|lia].
Qed.

Lemma pressed_names_cons (byte1 byte2 : Z) b bs :
  List.concat (map (fun b => list_ascii_of_string (button_name b ++ " "))
                   (filter (button_flag byte1 byte2) (b :: bs)))
  = (if button_flag byte1 byte2 b then list_ascii_of_string (button_name b ++ " ") else [])
    ++ List.concat (map (fun b => list_ascii_of_string (button_name b ++ " "))
                        (filter (button_flag byte1 byte2) bs)).
Proof. simpl. destruct (button_flag byte1 byte2 b); reflexivity. Qed.

Lemma newline_holds (size : nat) (buf : list ascii) (len : Z) (text : list ascii) :
  holds size (buf, len) text ->
  (List.length text + 1 < size)%nat ->
  holds size (store (store buf (Z.to_nat len) [NL]) (Z.to_nat (len + 1)) [NUL], len + 1)
        (text ++ [NL]).
Proof.
  intros (Hsize & Hlen & Htext) Hfit. simpl in Hsize, Hlen, Htext. subst len.
  unfold holds. simpl fst; simpl snd.
  rewrite !store_length, length_app. simpl List.length.
  repeat split; [assumption|lia|].
  replace (Z.to_nat (Z.of_nat (List.length text) + 1)) with (List.length text + 1)%nat by lia.
  rewrite Nat2Z.id.
  rewrite <- (Nat.add_0_r (List.length text + 1)) at 1.
  rewrite firstn_store by (rewrite ?store_length; simpl; lia).
  rewrite firstn_store by (simpl; lia).
  rewrite Htext. simpl. now rewrite app_nil_r.
Qed.

Lemma button_entry_chain (report_id byte1 byte2 : Z) :
  is_u8 report_id ->
  button_entry report_id byte1 byte2 =
  (list_ascii_of_string ("Report: ID=" ++ fmt_u report_id ++ ", ")
   ++ (if Z.testbit byte1 0 then list_ascii_of_string "Dpad_Right " else [])
   ++ (if Z.testbit byte1 1 then list_ascii_of_string "Dpad_Left " else [])
   ++ (if Z.testbit byte1 2 then list_ascii_of_string "Dpad_Down " else [])
   ++ (if Z.testbit byte1 3 then list_ascii_of_string "Dpad_Up " else [])
   ++ (if Z.testbit byte1 4 then list_ascii_of_string "Plus " else [])
   ++ (if Z.testbit byte1 5 then list_ascii_of_string "Minus " else [])
   ++ (if Z.testbit byte1 6 then list_ascii_of_string "Home " else [])
   ++ (if Z.testbit byte2 0 then list_ascii_of_string "A " else [])
   ++ (if Z.testbit byte2 1 then list_ascii_of_string "B " else [])
   ++ (if Z.testbit byte2 2 then list_ascii_of_string "1 " else [])
   ++ (if Z.testbit byte2 3 then list_ascii_of_string "2 " else []))
  ++ [NL].
Proof.
  intros Hid. unfold button_entry, pressed_names, button_table.
  rewrite fmt_u_decimal by assumption.
  rewrite !pressed_names_cons. simpl filter. simpl map. simpl List.concat.
  unfold button_flag, button_name. simpl Nat.eqb. cbv iota. simpl snd.
  rewrite <- !app_assoc. rewrite app_nil_l. reflexivity.
Qed.

Lemma format_buttons_holds (garbage : list ascii) (report_id byte1 byte2 : Z) :
  List.length garbage = 256%nat -> is_u8 report_id ->
  holds 256 (format_buttons garbage report_id byte1 byte2)
        (button_entry report_id byte1 byte2).
Proof.
  intros Hlen Hid. unfold format_buttons.
  set (hdr := ("Report: ID=" ++ fmt_u report_id ++ ", ")%string).
  assert (Hhdr : (String.length hdr <= 16)%nat).
  { unfold hdr. rewrite fmt_u_decimal by assumption.
    pose proof (decimal_length report_id Hid).
    rewrite <- !length_list_ascii, !list_ascii_app, !length_app, !length_list_ascii.
    simpl. lia. }
  destruct (snprintf_holds 256 garbage [] hdr) as [Hn Hh];
    [unfold C.INT_MAX; lia | repeat split; assumption | change (List.length (@nil ascii)) with 0%nat; lia |].
  simpl List.length in Hn, Hh. simpl app in Hh.
  change (C.to_size_t (mapping_output_size - 0))
    with (C.to_size_t (Z.of_nat 256 - Z.of_nat 0)).
  change (snprintf garbage 0) with (snprintf garbage (Z.of_nat 0)).
  destruct (snprintf garbage _ _ hdr) as [out n]. simpl in Hn, Hh.
  assert (H0 : within (out, 0 + n) (list_ascii_of_string hdr) 16).
  { split; [exact Hh | rewrite length_list_ascii; exact Hhdr]. }
  pose proof (map_button_within byte1 0 "Dpad_Right " _ _ _ ltac:(lia) H0 ltac:(simpl; lia)) as H1.
  pose proof (map_button_within byte1 1 "Dpad_Left " _ _ _ ltac:(lia) H1 ltac:(simpl; lia)) as H2.
  pose proof (map_button_within byte1 2 "Dpad_Down " _ _ _ ltac:(lia) H2 ltac:(simpl; lia)) as H3.
  pose proof (map_button_within byte1 3 "Dpad_Up " _ _ _ ltac:(lia) H3 ltac:(simpl; lia)) as H4.
  pose proof (map_button_within byte1 4 "Plus " _ _ _ ltac:(lia) H4 ltac:(simpl; lia)) as H5.
  pose proof (map_button_within byte1 5 "Minus " _ _ _ ltac:(lia) H5 ltac:(simpl; lia)) as H6.
  pose proof (map_button_within byte1 6 "Home " _ _ _ ltac:(lia) H6 ltac:(simpl; lia)) as H7.
  pose proof (map_button_within byte2 0 "A " _ _ _ ltac:(lia) H7 ltac:(simpl; lia)) as H8.
  pose proof (map_button_within byte2 1 "B " _ _ _ ltac:(lia) H8 ltac:(simpl; lia)) as H9.
  pose proof (map_button_within byte2 2 "1 " _ _ _ ltac:(lia) H9 ltac:(simpl; lia)) as H10.
  pose proof (map_button_within byte2 3 "2 " _ _ _ ltac:(lia) H10 ltac:(simpl; lia)) as H11.
  clear H0 H1 H2 H3 H4 H5 H6 H7 H8 H9 H10.
  cbv zeta.
  change (2 ^ 0) with 1 in H11. change (2 ^ 1) with 2 in H11. change (2 ^ 2) with 4 in H11.
  change (2 ^ 3) with 8 in H11. change (2 ^ 4) with 16 in H11. change (2 ^ 5) with 32 in H11.
  change (2 ^ 6) with 64 in H11.
  rewrite button_entry_chain by assumption. fold hdr.
  rewrite <- !app_assoc in H11.
  set (text := list_ascii_of_string hdr ++ _) in *.
  destruct (map_button byte2 8 _ _) as [buf len].
  destruct H11 as [Hholds Hbound].
  assert (Hb : (List.length text <= 79)%nat).
  { eapply Nat.le_trans; [exact Hbound | apply Nat.leb_le; reflexivity]. }
  pose proof Hholds as (_ & Hlen' & _). cbn [snd] in Hlen'.
  assert (Hpos : (0 < List.length text)%nat).
  { unfold text, hdr. simpl. lia. }
  destruct (Z.eqb_spec len 0) as [Hz|_]; [lia|].
  unfold C.to_size_t, mapping_output_size. rewrite !Z.mod_small by lia.
  destruct (Z.ltb_spec len (256 - 1)) as [_|Hge]; [|lia].
  apply newline_holds; [assumption|lia].
Qed.

Lemma format_buttons_chars (garbage : list ascii) (report_id byte1 byte2 : Z) :
  List.length garbage = 256%nat -> is_u8 report_id ->
  chars (format_buttons garbage report_id byte1 byte2) = button_entry report_id byte1 byte2.
Proof. intros Hlen Hid. apply (holds_chars 256). now apply format_buttons_holds. Qed.


(** ** The ring *)

Lemma used_range (d : driver) : ring_wf d -> 0 <= used d <= CIRC_BUFFER_SIZE - 1.
Proof. intros Hwf. ring_arith. Qed.

Lemma full_iff (d : driver) :
  ring_wf d ->
  (C.rem (head d + 1) CIRC_BUFFER_SIZE = tail d <-> used d = CIRC_BUFFER_SIZE - 1).
Proof. intros Hwf. ring_arith. Qed.

Lemma empty_iff (d : driver) : ring_wf d -> (tail d = head d <-> used d = 0).
Proof. intros Hwf. ring_arith. Qed.

Lemma unread_length (d : driver) : List.length (unread d) = Z.to_nat (used d).
Proof. unfold unread. now rewrite length_map, length_seq. Qed.

Lemma slot_set_same (buf : list ascii) (i : Z) (c : ascii) :
  0 <= i < Z.of_nat (List.length buf) -> slot (set_slot buf i c) i = c.
Proof. intros Hi. unfold slot, set_slot. apply nth_store_same. lia. Qed.

Lemma slot_set_other (buf : list ascii) (i j : Z) (c : ascii) :
  0 <= i -> 0 <= j -> i <> j -> slot (set_slot buf i c) j = slot buf j.
Proof. intros Hi Hj Hij. unfold slot, set_slot. apply nth_store_other. lia. Qed.

Lemma push_wf (c : ascii) (d : driver) : ring_wf d -> ring_wf (push c d).
Proof.
  intros Hwf. unfold ring_wf, push, set_ring, set_slot in *. simpl.
  rewrite store_length. ring_arith.
Qed.

Lemma push_used (c : ascii) (d : driver) :
  ring_wf d -> used d <> CIRC_BUFFER_SIZE - 1 -> used (push c d) = used d + 1.
Proof. intros Hwf Hroom. unfold push, set_ring. ring_arith. Qed.

Lemma push_unread (c : ascii) (d : driver) :
  ring_wf d -> used d <> CIRC_BUFFER_SIZE - 1 -> unread (push c d) = unread d ++ [c].
Proof.
  intros Hwf Hroom. pose proof (used_range d Hwf) as Hu.
  unfold unread at 1. rewrite push_used by assumption.
  replace (Z.to_nat (used d + 1)) with (S (Z.to_nat (used d))) by lia.
  rewrite seq_S, map_app. simpl map. f_equal.
  - unfold unread. apply map_ext_in. intros k Hk. apply in_seq in Hk.
    unfold push, set_ring. simpl. apply slot_set_other.
    + ring_arith.
    + ring_arith.
    + ring_arith.
  - f_equal. unfold push, set_ring. simpl.
    replace ((tail d + Z.of_nat (Z.to_nat (used d))) mod CIRC_BUFFER_SIZE) with (head d)
      by ring_arith.
    apply slot_set_same. ring_arith.
Qed.

Lemma pop_wf (d : driver) : ring_wf d -> ring_wf (pop d).
Proof. intros Hwf. unfold pop, set_tail. ring_arith. Qed.

Lemma pop_used (d : driver) : ring_wf d -> used d <> 0 -> used (pop d) = used d - 1.
Proof. intros Hwf Hne. unfold pop, set_tail. ring_arith. Qed.

Lemma pop_unread (d : driver) :
  ring_wf d -> used d <> 0 ->
  unread d = slot (circ_buffer d) (tail d) :: unread (pop d).
Proof.
  intros Hwf Hne. pose proof (used_range d Hwf) as Hu.
  unfold unread. rewrite pop_used by assumption.
  replace (Z.to_nat (used d)) with (S (Z.to_nat (used d - 1))) by lia.
  simpl seq. simpl map. f_equal.
  - f_equal. ring_arith.
  - rewrite <- seq_shift, map_map. apply map_ext_in. intros k Hk. apply in_seq in Hk.
    unfold pop, set_tail. simpl. f_equal. ring_arith.
Qed.

Lemma circ_buffer_write_spec (data : list ascii) :
  forall d, ring_wf d ->
    ring_wf (fst (circ_buffer_write data d)) /\
    tail (fst (circ_buffer_write data d)) = tail d /\
    device_fields (fst (circ_buffer_write data d)) = device_fields d /\
    unread (fst (circ_buffer_write data d)) = unread d ++ firstn (Z.to_nat (room d)) data /\
    snd (circ_buffer_write data d) =
      (if Z.of_nat (List.length data) <=? room d then [] else [Printk MsgBufferFull]).
Proof.
  induction data as [|c rest IH]; intros d Hwf.
  - simpl. rewrite firstn_nil, app_nil_r.
    pose proof (used_range d Hwf) as Hu. unfold room.
    destruct (Z.leb_spec 0 (CIRC_BUFFER_SIZE - 1 - used d)); [|lia]. auto.
  - pose proof (used_range d Hwf) as Hu.
    cbn [circ_buffer_write]. cbv zeta.
    destruct (Z.eqb_spec (C.rem (head d + 1) CIRC_BUFFER_SIZE) (tail d)) as [Hfull|Hfree].
    + apply full_iff in Hfull; [|assumption]. unfold room. rewrite Hfull.
      replace (CIRC_BUFFER_SIZE - 1 - (CIRC_BUFFER_SIZE - 1)) with 0 by lia.
      simpl fst; simpl snd. simpl firstn. rewrite app_nil_r.
      destruct (Z.leb_spec (Z.of_nat (List.length (c :: rest))) 0) as [Hle|_];
        [simpl in Hle; lia|]. auto.
    + assert (Hroom : used d <> CIRC_BUFFER_SIZE - 1).
      { intros Hu'. apply Hfree. now apply full_iff. }
      fold (push c d).
      destruct (IH (push c d) (push_wf c d Hwf)) as (Hwf' & Htail & Hdev & Hunread & Hfx).
      repeat split; try apply Hwf'.
      * rewrite Htail. reflexivity.
      * rewrite Hdev. reflexivity.
      * rewrite Hunread, push_unread by assumption. unfold room.
        rewrite push_used by assumption. rewrite <- app_assoc. f_equal.
        replace (Z.to_nat (CIRC_BUFFER_SIZE - 1 - used d))
          with (S (Z.to_nat (CIRC_BUFFER_SIZE - 1 - (used d + 1)))) by lia.
        reflexivity.
      * rewrite Hfx. unfold room. rewrite push_used by assumption.
        simpl List.length.
        destruct (Z.leb_spec (Z.of_nat (List.length rest)) (CIRC_BUFFER_SIZE - 1 - (used d + 1)));
          destruct (Z.leb_spec (Z.of_nat (S (List.length rest))) (CIRC_BUFFER_SIZE - 1 - used d));
          try reflexivity; lia.
Qed.

(** ** The read loop *)

Lemma device_read_loop_drained (user_ok : nat -> bool) (remaining : nat) :
  forall bytes_copied out d,
    ring_wf d ->
    exists k, drained user_ok remaining bytes_copied out d
                      (device_read_loop user_ok remaining bytes_copied out d) k.
Proof.
  induction remaining as [|remaining' IH]; intros bytes_copied out d Hwf;
    pose proof (used_range d Hwf) as Hu.
  - exists 0%nat. simpl. rewrite app_nil_r, Nat.add_0_r, Z.sub_0_r.
    repeat split; try apply Hwf; lia.
  - cbn [device_read_loop].
    destruct (Z.eqb_spec (tail d) (head d)) as [Hempty|Hne].
    { apply empty_iff in Hempty; [|assumption].
      exists 0%nat. simpl. rewrite app_nil_r, Nat.add_0_r, Z.sub_0_r.
      repeat split; try apply Hwf; lia. }
    assert (Hused : used d <> 0).
    { intros Hz. apply Hne. now apply empty_iff. }
    destruct (user_ok bytes_copied) eqn:Hok.
    + fold (pop d).
      destruct (IH (S bytes_copied) (out ++ [slot (circ_buffer d) (tail d)]) (pop d)
                   (pop_wf d Hwf)) as [k Hk].
      exists (S k).
      destruct (device_read_loop user_ok remaining' (S bytes_copied) _ (pop d))
        as [[ret out'] d'].
      destruct Hk as (Hrem & Hle & Hall & Hout & Hunread & Hused' & Hwf' & Hhead & Hdev & Hret).
      rewrite pop_used in Hle, Hused', Hret by assumption.
      unfold drained. rewrite (pop_unread d) by assumption.
      simpl firstn. simpl skipn.
      replace (bytes_copied + S k)%nat with (S bytes_copied + k)%nat by lia.
      repeat split; try apply Hwf'; try assumption; try lia.
      * intros i Hi. destruct (Nat.eq_dec i bytes_copied) as [->|Hni]; [assumption|].
        apply Hall. lia.
      * rewrite Hout, <- app_assoc. reflexivity.
      * destruct Hret as [(Hr & Hstop)|(Hr & Hlt & Hlt' & Hbad)].
        -- left. split; [assumption|]. destruct Hstop; [left|right]; lia.
        -- right. repeat split; try assumption; lia.
    + exists 0%nat. simpl. rewrite app_nil_r, Nat.add_0_r, Z.sub_0_r.
      repeat split; try apply Hwf; try lia. right. repeat split; try lia. assumption.
Qed.

(** ** The text built for a battery report *)

Lemma format_battery_chars (garbage : list ascii) (level : Z) :
  List.length garbage = 64%nat -> is_u8 level ->
  chars (format_battery garbage level) = battery_entry level.
Proof.
  intros Hlen Hlevel. apply (holds_chars 64). unfold format_battery, battery_entry.
  rewrite fmt_d_decimal by assumption.
  set (s := ("Battery: " ++ decimal level ++ String NL "")%string).
  assert (Hs : (String.length s <= 13)%nat).
  { unfold s. pose proof (decimal_length level Hlevel).
    rewrite <- !length_list_ascii, !list_ascii_app, !length_app, !length_list_ascii.
    simpl. lia. }
  destruct (snprintf_holds 64 garbage [] s) as [Hn Hh];
    [unfold C.INT_MAX; lia | repeat split; assumption
    | change (List.length (@nil ascii)) with 0%nat; lia |].
  change (List.length (@nil ascii)) with 0%nat in Hn, Hh. cbn [app] in Hh.
  change (C.to_size_t battery_output_size) with (C.to_size_t (Z.of_nat 64 - Z.of_nat 0)).
  change (snprintf garbage 0) with (snprintf garbage (Z.of_nat 0)).
  destruct (snprintf garbage _ _ s) as [out n]. cbn [fst snd] in Hn, Hh.
  replace (list_ascii_of_string ("Battery: " ++ decimal level) ++ [NL])
    with (list_ascii_of_string s).
  - exact Hh.
  - unfold s. rewrite !list_ascii_app, app_assoc. reflexivity.
Qed.

(** ** The three paths of wii_raw_event *)

Lemma wii_raw_event_buttons (stk : stack) (data : list Z) (d : driver) :
  stack_wf stk -> is_u8 (nth 0 data 0) ->
  (3 <= List.length data)%nat -> nth 0 data 0 <> 32 ->
  wii_raw_event stk data d =
  (0, fst (circ_buffer_write (button_entry (nth 0 data 0) (nth 1 data 0) (nth 2 data 0)) d),
   Printk (MsgReceived data)
   :: snd (circ_buffer_write (button_entry (nth 0 data 0) (nth 1 data 0) (nth 2 data 0)) d)).
Proof.
  intros [Hmap _] Hid Hsize Hne. unfold wii_raw_event, perform_input_mapping.
  destruct (Z.eqb_spec (nth 0 data 0) 32) as [Heq|_]; [contradiction|].
  rewrite andb_false_r.
  destruct (Z.ltb_spec (Z.of_nat (List.length data)) 3) as [Hlt|_]; [lia|].
  rewrite format_buttons_chars by assumption.
  destruct (circ_buffer_write _ d) as [d' fx]. reflexivity.
Qed.

Lemma wii_raw_event_battery (stk : stack) (data : list Z) (d : driver) :
  stack_wf stk -> is_u8 (nth 1 data 0) ->
  (2 <= List.length data)%nat -> nth 0 data 0 = 32 ->
  wii_raw_event stk data d =
  (0, fst (circ_buffer_write (battery_entry (nth 1 data 0))
                             (set_last_battery (nth 1 data 0) d)),
   Printk (MsgReceived data) :: Printk MsgBatteryDetected
   :: snd (circ_buffer_write (battery_entry (nth 1 data 0))
                             (set_last_battery (nth 1 data 0) d))).
Proof.
  intros [_ Hbat] Hlevel Hsize Heq. unfold wii_raw_event.
  rewrite Heq. simpl (32 =? 32).
  destruct (Z.gtb_spec (Z.of_nat (List.length data)) 0) as [_|Hle]; [|lia].
  destruct (Z.geb_spec (Z.of_nat (List.length data)) 2) as [_|Hlt]; [|lia].
  cbn [andb]. rewrite format_battery_chars by assumption.
  destruct (circ_buffer_write _ _) as [d' fx]. reflexivity.
Qed.

Lemma wii_raw_event_short (stk : stack) (data : list Z) (d : driver) :
  (List.length data < 3)%nat -> nth_error data 0 <> Some 32 ->
  wii_raw_event stk data d = (0, d, [Printk (MsgReceived data); Printk MsgTooShort]).
Proof.
  intros Hsize Hne. unfold wii_raw_event, perform_input_mapping.
  assert (Hcond : (Z.of_nat (List.length data) >? 0) && (nth 0 data 0 =? 32) = false).
  { destruct data as [|b rest]; [reflexivity|]. simpl nth.
    destruct (Z.eqb_spec b 32) as [->|_]; [now elim Hne|]. apply andb_false_r. }
  rewrite Hcond.
  destruct (Z.ltb_spec (Z.of_nat (List.length data)) 3) as [_|Hge]; [|lia].
  reflexivity.
Qed.

(** ** Every call keeps the ring well formed *)

Lemma ring_wf_same_ring (d d' : driver) :
  circ_buffer d' = circ_buffer d -> head d' = head d -> tail d' = tail d ->
  ring_wf d -> ring_wf d'.
Proof. unfold ring_wf. intros -> -> ->. auto. Qed.

Lemma perform_input_mapping_wf (garbage : list ascii) (data : list Z) (d : driver) :
  ring_wf d -> ring_wf (fst (perform_input_mapping garbage data d)).
Proof.
  intros Hwf. unfold perform_input_mapping.
  destruct (Z.of_nat (List.length data) <? 3); [exact Hwf|].
  now apply circ_buffer_write_spec.
Qed.

Lemma wii_raw_event_wf (stk : stack) (data : list Z) (d : driver) :
  ring_wf d -> ring_wf (snd (fst (wii_raw_event stk data d))).
Proof.
  intros Hwf. unfold wii_raw_event.
  destruct ((Z.of_nat (List.length data) >? 0) && (nth 0 data 0 =? 32)).
  - destruct (Z.of_nat (List.length data) >=? 2); [|exact Hwf].
    pose proof (circ_buffer_write_spec
                  (chars (format_battery (battery_output stk) (nth 1 data 0)))
                  (set_last_battery (nth 1 data 0) d)) as Hspec.
    destruct (circ_buffer_write _ _) as [d' fx]. apply Hspec.
    now apply (ring_wf_same_ring d).
  - pose proof (perform_input_mapping_wf (mapping_output stk) data d Hwf) as Hspec.
    destruct (perform_input_mapping _ _ _) as [d' fx]. exact Hspec.
Qed.

Lemma device_read_wf (user_ok : nat -> bool) (count : nat) (d : driver) :
  ring_wf d -> ring_wf (snd (device_read user_ok count d)).
Proof.
  intros Hwf. unfold device_read.
  destruct (device_read_loop_drained user_ok count 0 [] d Hwf) as [k Hk].
  destruct (device_read_loop _ _ _ _ _) as [[ret out] d']. apply Hk.
Qed.

Lemma step_wf (d : driver) (e : event) : ring_wf d -> ring_wf (step d e).
Proof.
  intros Hwf. destruct e as [hdev p s|hdev|stk data|user_ok count|cmd hid_ret]; simpl.
  - unfold wii_probe. destruct (negb (p =? 0)); [exact Hwf|].
    destruct (negb (s =? 0)); exact Hwf.
  - exact Hwf.
  - now apply wii_raw_event_wf.
  - now apply device_read_wf.
  - unfold device_ioctl. destruct (cmd =? WIIMOTE_IOCTL_REQUEST_STATUS); [|exact Hwf].
    destruct (wii_hid_dev d); exact Hwf.
Qed.

Lemma run_wf (evs : list event) : forall d, ring_wf d -> ring_wf (run d evs).
Proof.
  induction evs as [|e evs IH]; intros d Hwf; simpl; [exact Hwf|].
  apply IH. now apply step_wf.
Qed.

Lemma driver_init_wf (garbage : list ascii) :
  Z.of_nat (List.length garbage) = CIRC_BUFFER_SIZE -> ring_wf (driver_init garbage).
Proof. intros Hlen. unfold ring_wf, driver_init, CIRC_BUFFER_SIZE in *. simpl. lia. Qed.

Lemma used_unread (d : driver) :
  ring_wf d -> used d = Z.of_nat (List.length (unread d)).
Proof. intros Hwf. pose proof (used_range d Hwf). rewrite unread_length. lia. Qed.

(** ** Button reports *)

Lemma masked_bit_clear (b m k : Z) :
  Z.land b m = 0 -> Z.testbit m k = true -> Z.testbit b k = false.
Proof.
  intros Hland Hm.
  assert (H : Z.testbit (Z.land b m) k = false) by (rewrite Hland; apply Z.bits_0).
  now rewrite Z.land_spec, Hm, andb_true_r in H.
Qed.

Lemma pressed_names_none (byte1 byte2 : Z) :
  Z.land byte1 127 = 0 -> Z.land byte2 15 = 0 ->
  all_flags_false byte1 byte2 = true /\ pressed_names byte1 byte2 = [].
Proof.
  intros H1 H2. unfold all_flags_false, pressed_names, button_table, button_flag.
  cbn [forallb filter Nat.eqb].
  rewrite !(masked_bit_clear byte1 127) by (assumption || reflexivity).
  rewrite !(masked_bit_clear byte2 15) by (assumption || reflexivity).
  split; reflexivity.
Qed.

(** C1: a button report (length at least 3, first byte not 0x20) whose
    eleven flags are all false ([byte1 & 0x7F == 0], [byte2 & 0x0F == 0]) is
    rendered as the bare header ["Report: ID=<id>, "] and a newline.  The
    text ["No buttons pressed"] is not produced: the header has already made
    [len] positive when [len == 0] is tested. *)
Theorem no_buttons_entry_is_bare_header (stk : stack) (data : list Z) (d : driver) :
  stack_wf stk -> is_u8 (nth 0 data 0) ->
  (3 <= List.length data)%nat -> nth 0 data 0 <> 32 ->
  Z.land (nth 1 data 0) 127 = 0 -> Z.land (nth 2 data 0) 15 = 0 ->
  let entry := list_ascii_of_string ("Report: ID=" ++ decimal (nth 0 data 0) ++ ", ") ++ [NL] in
  all_flags_false (nth 1 data 0) (nth 2 data 0) = true /\
  wii_raw_event stk data d =
    (0, fst (circ_buffer_write entry d),
     Printk (MsgReceived data) :: snd (circ_buffer_write entry d)) /\
  entry <> list_ascii_of_string "No buttons pressed" ++ [NL].
Proof.
  intros Hstk Hid Hsize Hne H1 H2 entry.
  destruct (pressed_names_none _ _ H1 H2) as [Hall Hnone].
  split; [exact Hall|]. split.
  - rewrite wii_raw_event_buttons by assumption.
    unfold button_entry. rewrite Hnone. reflexivity.
  - unfold entry. simpl. discriminate.
Qed.

Lemma no_buttons_entry_at_0x31 :
  let stk := mkStack (repeat NUL 256) (repeat NUL 64) in
  let d := driver_init (repeat NUL 1024) in
  let entry := list_ascii_of_string "Report: ID=49, " ++ [NL] in
  all_flags_false 0 0 = true /\
  wii_raw_event stk [49; 0; 0] d =
    (0, fst (circ_buffer_write entry d),
     Printk (MsgReceived [49; 0; 0]) :: snd (circ_buffer_write entry d)) /\
  entry <> list_ascii_of_string "No buttons pressed" ++ [NL].
Proof.
  intros stk d.
  apply (no_buttons_entry_is_bare_header stk [49; 0; 0] d).
  - split; reflexivity.
  - unfold is_u8. simpl. lia.
  - simpl. lia.
  - simpl. lia.
  - reflexivity.
  - reflexivity.
Defined.

(** C2: for a report of length at least 3 whose first byte is not 0x20,
    whatever bytes 1 and 2 are, the text handed to the channel is the header
    ["Report: ID=<id>, "] (the id in unsigned decimal), then the names of the
    set bits in the order Dpad_Right, Dpad_Left, Dpad_Down, Dpad_Up, Plus,
    Minus, Home, A, B, 1, 2, each followed by a space, then a newline; the
    channel takes as much of it as it has room for.  The report
    [0x31, 0x01, 0x00] gives ["Report: ID=49, Dpad_Right \n"]. *)
Theorem button_report_entry (stk : stack) (data : list Z) (d : driver) :
  stack_wf stk -> is_u8 (nth 0 data 0) ->
  (3 <= List.length data)%nat -> nth 0 data 0 <> 32 ->
  ring_wf d ->
  let entry := button_entry (nth 0 data 0) (nth 1 data 0) (nth 2 data 0) in
  wii_raw_event stk data d =
    (0, fst (circ_buffer_write entry d),
     Printk (MsgReceived data) :: snd (circ_buffer_write entry d)) /\
  unread (snd (fst (wii_raw_event stk data d)))
    = unread d ++ firstn (Z.to_nat (room d)) entry /\
  unread (snd (fst (wii_raw_event stk [49; 1; 0] d)))
    = unread d ++ firstn (Z.to_nat (room d))
                         (list_ascii_of_string "Report: ID=49, Dpad_Right " ++ [NL]).
Proof.
  intros Hstk Hid Hsize Hne Hwf entry.
  assert (Hgen : forall data', is_u8 (nth 0 data' 0) -> (3 <= List.length data')%nat ->
                   nth 0 data' 0 <> 32 ->
                   unread (snd (fst (wii_raw_event stk data' d)))
                   = unread d ++ firstn (Z.to_nat (room d))
                                        (button_entry (nth 0 data' 0) (nth 1 data' 0)
                                                      (nth 2 data' 0))).
  { intros data' Hid' Hsize' Hne'. rewrite wii_raw_event_buttons by assumption.
    cbn [fst snd]. now apply circ_buffer_write_spec. }
  split; [now apply wii_raw_event_buttons|]. split; [now apply Hgen|].
  rewrite Hgen; [reflexivity| | |]; simpl; unfold is_u8; lia.
Qed.

Lemma button_report_entry_at_0x31 :
  let stk := mkStack (repeat NUL 256) (repeat NUL 64) in
  let d := driver_init (repeat NUL 1024) in
  unread (snd (fst (wii_raw_event stk [49; 1; 0] d)))
  = list_ascii_of_string "Report: ID=49, Dpad_Right " ++ [NL].
Proof.
  intros stk d.
  destruct (button_report_entry stk [49; 1; 0] d) as (_ & _ & Hscenario).
  - split; reflexivity.
  - unfold is_u8. simpl. lia.
  - simpl. lia.
  - simpl. lia.
  - apply driver_init_wf. reflexivity.
  - rewrite Hscenario. reflexivity.
Defined.

(** ** Battery reports *)

(** C5: a report whose first byte is 0x20 and which has at least two bytes
    hands ["Battery: <raw[1]>\n"] (unsigned decimal) to the channel and sets
    the cached battery level to [raw[1]], whatever the connection state was,
    and leaves the connection state alone; the report [0x20, 0x5A] gives
    ["Battery: 90\n"] and a cached level of 90. *)
Theorem battery_report_entry (stk : stack) (data : list Z) (d : driver) :
  stack_wf stk -> is_u8 (nth 1 data 0) ->
  (2 <= List.length data)%nat -> nth 0 data 0 = 32 ->
  ring_wf d ->
  let entry := battery_entry (nth 1 data 0) in
  let d' := snd (fst (wii_raw_event stk data d)) in
  wii_raw_event stk data d =
    (0, fst (circ_buffer_write entry (set_last_battery (nth 1 data 0) d)),
     Printk (MsgReceived data) :: Printk MsgBatteryDetected
     :: snd (circ_buffer_write entry (set_last_battery (nth 1 data 0) d))) /\
  unread d' = unread d ++ firstn (Z.to_nat (room d)) entry /\
  wii_last_battery d' = nth 1 data 0 /\
  wii_connected d' = wii_connected d /\ wii_hid_dev d' = wii_hid_dev d /\
  (let d90 := snd (fst (wii_raw_event stk [32; 90] d)) in
   unread d90 = unread d ++ firstn (Z.to_nat (room d))
                                   (list_ascii_of_string "Battery: 90" ++ [NL]) /\
   wii_last_battery d90 = 90).
Proof.
  intros Hstk Hlevel Hsize Hid Hwf entry d'.
  assert (Hgen : forall data', is_u8 (nth 1 data' 0) -> (2 <= List.length data')%nat ->
                   nth 0 data' 0 = 32 ->
                   let r := snd (fst (wii_raw_event stk data' d)) in
                   unread r = unread d ++ firstn (Z.to_nat (room d))
                                                 (battery_entry (nth 1 data' 0)) /\
                   device_fields r = (wii_hid_dev d, wii_connected d, nth 1 data' 0)).
  { intros data' Hlevel' Hsize' Hid' r. unfold r.
    rewrite wii_raw_event_battery by assumption. cbn [fst snd].
    assert (Hwf' : ring_wf (set_last_battery (nth 1 data' 0) d))
      by now apply (ring_wf_same_ring d).
    destruct (circ_buffer_write_spec (battery_entry (nth 1 data' 0)) _ Hwf')
      as (_ & _ & Hdev & Hunread & _).
    split; [exact Hunread | exact Hdev]. }
  split; [now apply wii_raw_event_battery|].
  destruct (Hgen data Hlevel Hsize Hid) as [Hunread Hdev].
  unfold device_fields in Hdev. fold d' in Hunread, Hdev.
  inversion Hdev as [[Hh Hc Hb]].
  repeat split; try assumption.
  - apply (Hgen [32; 90]); [unfold is_u8; simpl; lia | simpl; lia | reflexivity].
  - destruct (Hgen [32; 90]) as [_ Hdev90]; [unfold is_u8; simpl; lia | simpl; lia | reflexivity |].
    unfold device_fields in Hdev90. injection Hdev90 as _ _ Hb90. exact Hb90.
Qed.

Lemma battery_report_entry_at_0x5A :
  let stk := mkStack (repeat NUL 256) (repeat NUL 64) in
  let d := driver_init (repeat NUL 1024) in
  let d90 := snd (fst (wii_raw_event stk [32; 90] d)) in
  unread d90 = list_ascii_of_string "Battery: 90" ++ [NL] /\ wii_last_battery d90 = 90.
Proof.
  intros stk d.
  destruct (battery_report_entry stk [32; 90] d) as (_ & _ & _ & _ & _ & Hscenario).
  - split; reflexivity.
  - unfold is_u8. simpl. lia.
  - simpl. lia.
  - reflexivity.
  - apply driver_init_wf. reflexivity.
  - exact Hscenario.
Defined.

(** ** Rejected reports *)

(** C8: a report shorter than three bytes whose first byte is not 0x20 is
    rejected as too short: the warning is logged, nothing is written to the
    channel, and no static of the driver changes (connection state and
    cached battery level included). *)
Theorem short_report_rejected (stk : stack) (data : list Z) (d : driver) :
  (List.length data < 3)%nat -> nth_error data 0 <> Some 32 ->
  spec_decode data = Rejected TooShort /\
  wii_raw_event stk data d = (0, d, [Printk (MsgReceived data); Printk MsgTooShort]) /\
  unread (snd (fst (wii_raw_event stk data d))) = unread d /\
  wii_connected (snd (fst (wii_raw_event stk data d))) = wii_connected d /\
  wii_last_battery (snd (fst (wii_raw_event stk data d))) = wii_last_battery d.
Proof.
  intros Hsize Hne. rewrite wii_raw_event_short by assumption. split; [|repeat split].
  unfold spec_decode.
  destruct data as [|b [|b' [|b'' rest]]]; simpl in Hsize; try lia; try reflexivity;
    cbn [List.length Nat.ltb Nat.leb nth andb];
    (destruct (Z.eqb_spec b 32) as [->|_]; [now elim Hne|reflexivity]).
Qed.

Lemma short_report_rejected_at_0x31 :
  let stk := mkStack (repeat NUL 256) (repeat NUL 64) in
  let d := driver_init (repeat NUL 1024) in
  spec_decode [49; 1] = Rejected TooShort /\
  wii_raw_event stk [49; 1] d = (0, d, [Printk (MsgReceived [49; 1]); Printk MsgTooShort]) /\
  unread (snd (fst (wii_raw_event stk [49; 1] d))) = unread d /\
  wii_connected (snd (fst (wii_raw_event stk [49; 1] d))) = wii_connected d /\
  wii_last_battery (snd (fst (wii_raw_event stk [49; 1] d))) = wii_last_battery d.
Proof.
  intros stk d. apply (short_report_rejected stk [49; 1] d).
  - simpl. lia.
  - simpl. discriminate.
Defined.

(** ** The driver against the classifier of the specification *)

(** C9: the one-byte report [0x20] is not a status snapshot (it lacks the
    level byte) and is classified as rejected; the driver then writes nothing
    to the channel and changes none of its statics.  Classification is
    total: every report decodes to one variant, and the driver takes the
    path of that variant: it leaves its state alone on a rejected report,
    sets the cache and writes the battery text it builds on a status
    snapshot, and writes the button text it builds on a button snapshot. *)
Theorem lone_status_byte_rejected (stk : stack) (data : list Z) (d : driver) :
  spec_decode [32] = Rejected TooShort /\
  wii_raw_event stk [32] d = (0, d, [Printk (MsgReceived [32]); Printk MsgBatteryDetected]) /\
  unread (snd (fst (wii_raw_event stk [32] d))) = unread d /\
  match spec_decode data with
  | Rejected _ =>
      snd (fst (wii_raw_event stk data d)) = d /\
      ~ In (Printk MsgBufferFull) (snd (wii_raw_event stk data d))
  | StatusSnapshot level =>
      level = nth 1 data 0 /\
      snd (fst (wii_raw_event stk data d))
      = fst (circ_buffer_write (chars (format_battery (battery_output stk) level))
                               (set_last_battery level d))
  | ButtonSnapshot report_id flags =>
      report_id = nth 0 data 0 /\
      flags = map (button_flag (nth 1 data 0) (nth 2 data 0)) button_table /\
      snd (fst (wii_raw_event stk data d))
      = fst (circ_buffer_write
               (chars (format_buttons (mapping_output stk) report_id
                                      (nth 1 data 0) (nth 2 data 0))) d)
  end.
Proof.
  split; [reflexivity|]. split; [reflexivity|]. split; [reflexivity|].
  unfold spec_decode, wii_raw_event, perform_input_mapping.
  destruct (Nat.ltb_spec 0 (List.length data)) as [Hpos|Hzero];
    destruct (Z.gtb_spec (Z.of_nat (List.length data)) 0) as [Hpos'|Hzero'];
    try lia; cbn [andb].
  - destruct (nth 0 data 0 =? 32); cbn [andb].
    + destruct (Nat.leb_spec 2 (List.length data)) as [Htwo|Hone];
        destruct (Z.geb_spec (Z.of_nat (List.length data)) 2) as [Htwo'|Hone'];
        try lia.
      * split; [reflexivity|]. destruct (circ_buffer_write _ _) as [d' fx]. reflexivity.
      * destruct (Nat.ltb_spec (List.length data) 3) as [_|Hge]; [|lia].
        split; [reflexivity|]. cbn [snd app In]. intuition discriminate.
    + destruct (Nat.ltb_spec (List.length data) 3) as [Hlt|Hge];
        destruct (Z.ltb_spec (Z.of_nat (List.length data)) 3) as [Hlt'|Hge'];
        try lia.
      * split; [reflexivity|]. cbn [snd app In]. intuition discriminate.
      * split; [reflexivity|]. split; [reflexivity|].
        destruct (circ_buffer_write _ _) as [d' fx]. reflexivity.
  - destruct (Nat.ltb_spec (List.length data) 3) as [_|Hge]; [|lia].
    destruct (Z.ltb_spec (Z.of_nat (List.length data)) 3) as [_|Hge']; [|lia].
    split; [reflexivity|]. cbn [snd app In]. intuition discriminate.
Qed.

Lemma lone_status_byte_rejected_at_init :
  let stk := mkStack (repeat NUL 256) (repeat NUL 64) in
  let d := driver_init (repeat NUL 1024) in
  spec_decode [32] = Rejected TooShort /\
  wii_raw_event stk [32] d = (0, d, [Printk (MsgReceived [32]); Printk MsgBatteryDetected]) /\
  unread (snd (fst (wii_raw_event stk [32] d))) = unread d /\
  snd (fst (wii_raw_event stk [32] d)) = d /\
  ~ In (Printk MsgBufferFull) (snd (wii_raw_event stk [32] d)).
Proof.
  intros stk d. exact (lone_status_byte_rejected stk [32] d).
Defined.

(** ** The channel *)

Lemma room_unread (d : driver) :
  ring_wf d -> room d = CIRC_BUFFER_SIZE - 1 - Z.of_nat (List.length (unread d)).
Proof. intros Hwf. unfold room. now rewrite used_unread. Qed.

Lemma write_bytes_spec (cs : list ascii) :
  forall d, ring_wf d ->
    ring_wf (write_bytes cs d) /\
    unread (write_bytes cs d) = unread d ++ firstn (Z.to_nat (room d)) cs.
Proof.
  induction cs as [|c cs IH]; intros d Hwf.
  - simpl. now rewrite firstn_nil, app_nil_r.
  - cbn [write_bytes fold_left]. fold (write_bytes cs (fst (circ_buffer_write [c] d))).
    destruct (circ_buffer_write_spec [c] d Hwf) as (Hwf1 & _ & _ & Hunread1 & _).
    destruct (IH _ Hwf1) as [Hwf2 Hunread2]. split; [exact Hwf2|].
    rewrite Hunread2, Hunread1, <- app_assoc. f_equal.
    rewrite (room_unread _ Hwf1), Hunread1, length_app, (room_unread d Hwf).
    pose proof (used_range d Hwf) as Hu. rewrite (used_unread d Hwf) in Hu.
    unfold CIRC_BUFFER_SIZE in *.
    destruct (Z.to_nat (1024 - 1 - Z.of_nat (List.length (unread d)))) as [|r] eqn:Hr.
    + cbn [firstn List.length app]. replace (Z.to_nat _) with 0%nat by lia. reflexivity.
    + cbn [firstn]. rewrite firstn_nil. cbn [List.length app]. f_equal.
      replace (Z.to_nat _) with r by lia. reflexivity.
Qed.

(** C3: a write never touches an unread byte: the unread bytes stay as they
    were, in order, followed by the bytes of the write that fit; the write
    stops when advancing the write cursor would make it equal the read
    cursor.  At most 1023 unread bytes are stored, in every state the driver
    can reach, and after 1023 single-byte writes without a read the next
    single-byte write is dropped, so of 1024 such writes fewer than 1024
    bytes are stored. *)
Theorem write_never_overwrites (d : driver) (data : list ascii) :
  ring_wf d ->
  unread (fst (circ_buffer_write data d)) = unread d ++ firstn (Z.to_nat (room d)) data /\
  (List.length (unread (fst (circ_buffer_write data d))) <= 1023)%nat /\
  (forall c rest, data = c :: rest ->
     C.rem (head d + 1) CIRC_BUFFER_SIZE = tail d ->
     circ_buffer_write data d = (d, [Printk MsgBufferFull])) /\
  (forall garbage evs, Z.of_nat (List.length garbage) = CIRC_BUFFER_SIZE ->
     (List.length (unread (run (driver_init garbage) evs)) <= 1023)%nat) /\
  (forall cs c, List.length cs = 1023%nat ->
     circ_buffer_write [c] (write_bytes cs d) = (write_bytes cs d, [Printk MsgBufferFull]) /\
     (List.length (unread (write_bytes (cs ++ [c]) d)) < List.length (unread d) + 1024)%nat).
Proof.
  intros Hwf.
  assert (Hcap : forall d0, ring_wf d0 -> (List.length (unread d0) <= 1023)%nat).
  { intros d0 Hwf0. pose proof (used_range d0 Hwf0) as Hu.
    rewrite unread_length. unfold CIRC_BUFFER_SIZE in Hu. lia. }
  destruct (circ_buffer_write_spec data d Hwf) as (Hwf' & _ & _ & Hunread & _).
  split; [exact Hunread|]. split; [now apply Hcap|]. split; [|split].
  - intros c rest -> Hfull. cbn [circ_buffer_write]. cbv zeta.
    rewrite Hfull, Z.eqb_refl. reflexivity.
  - intros garbage evs Hlen. apply Hcap, run_wf. now apply driver_init_wf.
  - intros cs c Hlen.
    destruct (write_bytes_spec cs d Hwf) as [Hwf1 Hunread1].
    assert (Hfull : used (write_bytes cs d) = CIRC_BUFFER_SIZE - 1).
    { rewrite (used_unread _ Hwf1), Hunread1, length_app, length_firstn, Hlen.
      rewrite (room_unread d Hwf). pose proof (Hcap d Hwf). unfold CIRC_BUFFER_SIZE. lia. }
    split.
    + cbn [circ_buffer_write]. cbv zeta.
      apply (full_iff _ Hwf1) in Hfull. rewrite Hfull, Z.eqb_refl. reflexivity.
    + destruct (write_bytes_spec (cs ++ [c]) d Hwf) as [_ Hunread2].
      rewrite Hunread2, length_app, length_firstn.
      rewrite (room_unread d Hwf). unfold CIRC_BUFFER_SIZE. lia.
Qed.

Lemma write_never_overwrites_at_init :
  let d := driver_init (repeat NUL 1024) in
  let cs := repeat "x"%char 1023 in
  circ_buffer_write ["y"%char] (write_bytes cs d) = (write_bytes cs d, [Printk MsgBufferFull]) /\
  (List.length (unread (write_bytes (cs ++ ["y"%char]) d)) < List.length (unread d) + 1024)%nat.
Proof.
  intros d cs.
  destruct (write_never_overwrites d [] (driver_init_wf (repeat NUL 1024) eq_refl))
    as (_ & _ & _ & _ & Hrun).
  apply (Hrun cs "y"%char). reflexivity.
Defined.

(** C4: from an empty ring, writing at most 1023 bytes and then reading
    with a count of at least that many, into a user buffer that accepts
    them, returns exactly the written bytes in the order written and leaves
    the ring empty.  [device_read] is a total function (it never waits): for
    any user buffer and any count its result is at most the count and at
    most the number of unread bytes, it hands out no more bytes than that,
    and on an empty ring it returns 0. *)
Theorem channel_round_trip (d : driver) (data : list ascii)
    (user_ok : nat -> bool) (count : nat) :
  ring_wf d ->
  (tail d = head d -> (List.length data <= 1023)%nat ->
   (List.length data <= count)%nat ->
   (forall i, (i < List.length data)%nat -> user_ok i = true) ->
   exists d', device_read user_ok count (fst (circ_buffer_write data d))
              = (Z.of_nat (List.length data), data, d') /\
              unread d' = [] /\ tail d' = head d') /\
  fst (fst (device_read user_ok count d)) <= Z.min (Z.of_nat count) (used d) /\
  Z.of_nat (List.length (snd (fst (device_read user_ok count d))))
    <= Z.min (Z.of_nat count) (used d) /\
  (tail d = head d -> device_read user_ok count d = (0, [], d)).
Proof.
  intros Hwf. split; [|split; [|split]].
  - intros Hempty Hlen Hcount Hok.
    apply (empty_iff d Hwf) in Hempty.
    destruct (circ_buffer_write_spec data d Hwf) as (Hwf1 & _ & _ & Hunread & _).
    assert (Hd : unread d = []).
    { apply length_zero_iff_nil. rewrite unread_length. lia. }
    assert (Hroom : Z.to_nat (room d) = 1023%nat).
    { unfold room, CIRC_BUFFER_SIZE. lia. }
    rewrite Hd, Hroom, firstn_all2 in Hunread by assumption. cbn [app] in Hunread.
    unfold device_read.
    destruct (device_read_loop_drained user_ok count 0 [] _ Hwf1) as [k Hk].
    destruct (device_read_loop _ _ _ _ _) as [[ret out] d'].
    destruct Hk as (Hrem & Hle & Hall & Hout & Hunread' & Hused' & Hwf' & _ & _ & Hret).
    rewrite (used_unread _ Hwf1), Hunread in Hle, Hused', Hret.
    rewrite Hunread in Hout, Hunread'. cbn [app] in Hout.
    assert (Hk : k = List.length data).
    { destruct Hret as [(_ & [Hstop|Hstop])|(_ & _ & Hlt & Hbad)]; try lia.
      cbn [Nat.add] in Hbad. rewrite Hok in Hbad by lia. discriminate. }
    subst k. exists d'. rewrite firstn_all in Hout. rewrite skipn_all in Hunread'.
    destruct Hret as [(Hret & _)|(_ & _ & Hlt & _)]; [|lia].
    subst ret out. cbn [Nat.add]. repeat split; try assumption.
    apply (empty_iff d' Hwf'). lia.
  - unfold device_read.
    destruct (device_read_loop_drained user_ok count 0 [] d Hwf) as [k Hk].
    destruct (device_read_loop _ _ _ _ _) as [[ret out] d'].
    destruct Hk as (Hrem & Hle & _ & _ & _ & _ & _ & _ & _ & Hret).
    cbn [fst]. unfold C.EFAULT in Hret. pose proof (used_range d Hwf). lia.
  - unfold device_read.
    destruct (device_read_loop_drained user_ok count 0 [] d Hwf) as [k Hk].
    destruct (device_read_loop _ _ _ _ _) as [[ret out] d'].
    destruct Hk as (Hrem & Hle & _ & Hout & _).
    cbn [fst snd]. subst out. cbn [app]. rewrite length_firstn. lia.
  - intros Hempty. unfold device_read. destruct count as [|count']; [reflexivity|].
    cbn [device_read_loop]. now rewrite Hempty, Z.eqb_refl.
Qed.

Lemma channel_round_trip_at_init :
  let d := driver_init (repeat NUL 1024) in
  let data := list_ascii_of_string "Battery: 90" ++ [NL] in
  exists d', device_read (fun _ => true) 64 (fst (circ_buffer_write data d))
             = (12, data, d') /\ unread d' = [] /\ tail d' = head d'.
Proof.
  intros d data.
  destruct (channel_round_trip d data (fun _ => true) 64
              (driver_init_wf (repeat NUL 1024) eq_refl)) as (Hround & _).
  apply Hround.
  - reflexivity.
  - simpl. lia.
  - simpl. lia.
  - reflexivity.
Defined.

(** C10: when the copy of byte number [k] to the caller's buffer fails
    ([k] below the count and below the number of unread bytes, all earlier
    copies succeeding), [device_read] returns [-EFAULT]; the [k] bytes copied
    before are consumed, so later reads start after them, and the byte
    whose copy failed is still the first unread byte. *)
Theorem read_fault_consumes_prefix (d : driver) (user_ok : nat -> bool) (count k : nat) :
  ring_wf d ->
  (k < count)%nat -> Z.of_nat k < used d ->
  (forall i, (i < k)%nat -> user_ok i = true) ->
  user_ok k = false ->
  exists d',
    device_read user_ok count d = (- C.EFAULT, firstn k (unread d), d') /\
    unread d' = skipn k (unread d) /\
    hd_error (unread d') = nth_error (unread d) k /\
    hd_error (unread d') <> None /\
    (List.length (unread d') + k = List.length (unread d))%nat.
Proof.
  intros Hwf Hcount Hused Hok Hbad. unfold device_read.
  destruct (device_read_loop_drained user_ok count 0 [] d Hwf) as [j Hj].
  destruct (device_read_loop _ _ _ _ _) as [[ret out] d'].
  destruct Hj as (Hrem & Hle & Hall & Hout & Hunread & _ & _ & _ & _ & Hret).
  cbn [Nat.add app] in *.
  assert (Hjk : j = k).
  { destruct (Nat.lt_trichotomy j k) as [Hlt|[Heq|Hgt]]; [|exact Heq|].
    - destruct Hret as [(_ & [Hstop|Hstop])|(_ & _ & _ & Hbad')]; try lia.
      rewrite Hok in Hbad' by assumption. discriminate.
    - rewrite Hall in Hbad by lia. discriminate. }
  subst j. destruct Hret as [(_ & [Hstop|Hstop])|(Hret & _)]; try lia.
  subst ret out. exists d'.
  assert (Hlen : (k < List.length (unread d))%nat) by (rewrite unread_length; lia).
  rewrite Hunread. repeat split.
  - rewrite <- (firstn_skipn k (unread d)) at 2.
    rewrite nth_error_app2 by (rewrite length_firstn; lia).
    rewrite length_firstn, Nat.min_l, Nat.sub_diag by lia.
    destruct (skipn k (unread d)); reflexivity.
  - destruct (skipn k (unread d)) eqn:Hskip; [|discriminate].
    apply (f_equal (@List.length ascii)) in Hskip. rewrite length_skipn in Hskip.
    simpl in Hskip. lia.
  - rewrite length_skipn. lia.
Qed.

Lemma read_fault_consumes_prefix_at_abc :
  let d := fst (circ_buffer_write (list_ascii_of_string "abc") (driver_init (repeat NUL 1024))) in
  exists d',
    device_read (fun i => Nat.ltb i 1) 3 d = (- C.EFAULT, firstn 1 (unread d), d') /\
    unread d' = skipn 1 (unread d) /\
    hd_error (unread d') = nth_error (unread d) 1 /\
    hd_error (unread d') <> None /\
    (List.length (unread d') + 1 = List.length (unread d))%nat.
Proof.
  intros d.
  apply (read_fault_consumes_prefix d (fun i => Nat.ltb i 1) 3 1).
  - apply circ_buffer_write_spec, driver_init_wf. reflexivity.
  - lia.
  - reflexivity.
  - intros i Hi. apply Nat.ltb_lt. exact Hi.
  - reflexivity.
Defined.

(** ** What a write reports *)

(** C7, as stated, fails: writing the same two bytes into a ring with no
    free cell and into a ring with one free cell logs the same warning, yet
    the first write stores nothing and the second stores one byte. *)
Lemma write_outcome_hides_counts : ~ write_outcome_exposes_counts.
Proof.
  intros [report Hreport].
  set (d0 := driver_init (repeat NUL 1024)).
  set (data := ["a"%char; "b"%char]).
  assert (Hwf0 : ring_wf d0) by (apply driver_init_wf; reflexivity).
  pose proof (Hreport (write_bytes (repeat "x"%char 1023) d0) data
                (proj1 (write_bytes_spec _ d0 Hwf0))) as Hfull.
  pose proof (Hreport (write_bytes (repeat "x"%char 1022) d0) data
                (proj1 (write_bytes_spec _ d0 Hwf0))) as Hone.
  vm_compute in Hfull, Hone. congruence.
Qed.

(** C7, amended: a write stops at the first byte that finds the ring full;
    the bytes before it are stored behind the unread ones, the rest of the
    text is dropped.  The number stored is the smaller of the length and the
    room, the number dropped is the excess; the log gets the one fixed
    warning, without any count, exactly when something is dropped, and the
    function returns nothing. *)
Theorem write_stops_when_full (d : driver) (data : list ascii) :
  ring_wf d ->
  unread (fst (circ_buffer_write data d)) = unread d ++ firstn (Z.to_nat (room d)) data /\
  n_written data d = Z.min (Z.of_nat (List.length data)) (room d) /\
  n_dropped data d = Z.max 0 (Z.of_nat (List.length data) - room d) /\
  snd (circ_buffer_write data d)
    = (if 0 <? n_dropped data d then [Printk MsgBufferFull] else []).
Proof.
  intros Hwf.
  destruct (circ_buffer_write_spec data d Hwf) as (_ & _ & _ & Hunread & Hfx).
  pose proof (used_range d Hwf) as Hu.
  assert (Hw : n_written data d = Z.min (Z.of_nat (List.length data)) (room d)).
  { unfold n_written. rewrite Hunread, length_app, length_firstn.
    unfold room, CIRC_BUFFER_SIZE in *. lia. }
  assert (Hd : n_dropped data d = Z.max 0 (Z.of_nat (List.length data) - room d)).
  { unfold n_dropped. rewrite Hw. lia. }
  repeat split; try assumption.
  rewrite Hfx, Hd.
  destruct (Z.leb_spec (Z.of_nat (List.length data)) (room d));
    destruct (Z.ltb_spec 0 (Z.max 0 (Z.of_nat (List.length data) - room d)));
    try reflexivity; lia.
Qed.

Lemma write_stops_when_full_at_init :
  let d := write_bytes (repeat "x"%char 1022) (driver_init (repeat NUL 1024)) in
  let data := ["a"%char; "b"%char] in
  unread (fst (circ_buffer_write data d)) = unread d ++ firstn (Z.to_nat (room d)) data /\
  n_written data d = Z.min (Z.of_nat (List.length data)) (room d) /\
  n_dropped data d = Z.max 0 (Z.of_nat (List.length data) - room d) /\
  snd (circ_buffer_write data d)
    = (if 0 <? n_dropped data d then [Printk MsgBufferFull] else []).
Proof.
  intros d data. apply (write_stops_when_full d data).
  apply write_bytes_spec, driver_init_wf. reflexivity.
Defined.

(** ** Status requests *)

Lemma run_snoc (d : driver) (evs : list event) (e : event) :
  run d (evs ++ [e]) = step (run d evs) e.
Proof. unfold run. now rewrite fold_left_app. Qed.

Lemma circ_buffer_write_device (data : list ascii) :
  forall d, device_fields (fst (circ_buffer_write data d)) = device_fields d.
Proof.
  induction data as [|c rest IH]; intros d; [reflexivity|].
  cbn [circ_buffer_write]. cbv zeta.
  destruct (_ =? _); [reflexivity|]. now rewrite IH.
Qed.

Lemma device_read_loop_device (user_ok : nat -> bool) (remaining : nat) :
  forall bytes_copied out d,
    device_fields (snd (device_read_loop user_ok remaining bytes_copied out d))
    = device_fields d.
Proof.
  induction remaining as [|remaining' IH]; intros bytes_copied out d; [reflexivity|].
  cbn [device_read_loop]. destruct (_ =? _); [reflexivity|].
  destruct (user_ok bytes_copied); [|reflexivity]. now rewrite IH.
Qed.

Lemma wii_raw_event_device (stk : stack) (data : list Z) (d : driver) :
  wii_hid_dev (snd (fst (wii_raw_event stk data d))) = wii_hid_dev d /\
  wii_connected (snd (fst (wii_raw_event stk data d))) = wii_connected d.
Proof.
  unfold wii_raw_event, perform_input_mapping.
  destruct (_ && _).
  - destruct (_ >=? _); [|split; reflexivity].
    pose proof (circ_buffer_write_device
                  (chars (format_battery (battery_output stk) (nth 1 data 0)))
                  (set_last_battery (nth 1 data 0) d)) as Hdev.
    destruct (circ_buffer_write _ _) as [d' fx]. cbn [fst snd] in *.
    unfold device_fields in Hdev. injection Hdev as Hh Hc _. split; assumption.
  - destruct (_ <? _); [split; reflexivity|].
    pose proof (circ_buffer_write_device
                  (chars (format_buttons (mapping_output stk) (nth 0 data 0)
                                         (nth 1 data 0) (nth 2 data 0))) d) as Hdev.
    destruct (circ_buffer_write _ _) as [d' fx]. cbn [fst snd] in *.
    unfold device_fields in Hdev. injection Hdev as Hh Hc _. split; assumption.
Qed.

(** Only a probe that attaches and a remove assign the handle. *)
Lemma step_handle (d : driver) (e : event) :
  wii_hid_dev (step d e) =
  match e with
  | EvProbe hdev _ _ => if attaches e then Some hdev else wii_hid_dev d
  | EvRemove _ => None
  | _ => wii_hid_dev d
  end.
Proof.
  destruct e as [hdev p s|hdev|stk data|user_ok count|cmd hid_ret]; cbn [step attaches].
  - unfold wii_probe. destruct (p =? 0); [destruct (s =? 0)|]; reflexivity.
  - reflexivity.
  - apply wii_raw_event_device.
  - unfold device_read.
    pose proof (device_read_loop_device user_ok count 0 [] d) as Hdev.
    unfold device_fields in Hdev. now injection Hdev.
  - unfold device_ioctl. destruct (_ =? _); [|reflexivity].
    destruct (wii_hid_dev d) eqn:Hdev; cbn [fst snd]; auto.
Qed.

Lemma handle_after_run (garbage : list ascii) (evs : list event) :
  wii_hid_dev (run (driver_init garbage) evs) = None <->
  (existsb attaches evs = false \/ last_is_detach evs = true).
Proof.
  induction evs as [|e evs IH] using rev_ind.
  - simpl. split; auto.
  - rewrite run_snoc, step_handle. unfold last_is_detach, transitions in *.
    rewrite existsb_app, filter_app, rev_app_distr. cbn [existsb filter].
    rewrite orb_false_r.
    destruct e as [hdev p s|hdev|stk data|user_ok count|cmd hid_ret];
      cbn [attaches detaches orb rev app] in *;
      try (rewrite orb_false_r; exact IH).
    + destruct ((p =? 0) && (s =? 0)); cbn [orb rev app detaches].
      * rewrite orb_true_r. split; [discriminate|]. intros [H|H]; discriminate.
      * rewrite orb_false_r. exact IH.
    + split; auto.
Qed.

(** C6: the status-request ioctl returns [-ENODEV] without handing any
    frame to the transport exactly when no handle is retained, and no handle
    is retained exactly when no probe has attached or the last transition
    was a remove.  With a handle retained it hands over the two-byte frame
    [0x15, 0x00] as an output report once, returns what the transport
    returned, and leaves channel and cached state as they were: the reply is
    not awaited. *)
Theorem request_status_needs_device (garbage : list ascii) (evs : list event) (hid_ret : Z) :
  let d := run (driver_init garbage) evs in
  let r := device_ioctl WIIMOTE_IOCTL_REQUEST_STATUS hid_ret d in
  ((fst (fst r) = - C.ENODEV /\ filter is_request (snd r) = []) <-> wii_hid_dev d = None) /\
  (wii_hid_dev d = None <-> (existsb attaches evs = false \/ last_is_detach evs = true)) /\
  (forall hdev, wii_hid_dev d = Some hdev ->
     fst (fst r) = hid_ret /\
     filter is_request (snd r)
       = [HidHwRawRequest hdev 21 [21; 0] 2 HID_OUTPUT_REPORT HID_REQ_SET_REPORT]) /\
  snd (fst r) = d.
Proof.
  intros d r. unfold r, device_ioctl. rewrite Z.eqb_refl.
  split; [|split; [apply handle_after_run|split]].
  - destruct (wii_hid_dev d) as [hdev|]; cbn [fst snd].
    + split; [|discriminate]. intros [_ Hsent].
      cbn [app filter is_request] in Hsent. discriminate.
    + split; auto.
  - intros hdev Hdev. rewrite Hdev. cbn [fst snd app filter is_request nth].
    split; [reflexivity|]. destruct (hid_ret <? 0); reflexivity.
  - destruct (wii_hid_dev d); reflexivity.
Qed.

Lemma request_status_after_probe :
  let evs := [EvProbe 1%positive 0 0; EvRawEvent (mkStack [] []) [32; 90];
              EvRemove 1%positive; EvProbe 7%positive 0 0] in
  let d := run (driver_init (repeat NUL 1024)) evs in
  let r := device_ioctl WIIMOTE_IOCTL_REQUEST_STATUS 2 d in
  fst (fst r) = 2 /\
  filter is_request (snd r)
    = [HidHwRawRequest 7%positive 21 [21; 0] 2 HID_OUTPUT_REPORT HID_REQ_SET_REPORT].
Proof.
  intros evs d r.
  destruct (request_status_needs_device (repeat NUL 1024) evs 2) as (_ & _ & Hsend & _).
  apply (Hsend 7%positive). reflexivity.
Defined.

(** * Further properties of the driver *)

(** ** Reads and writes in sequence *)

Lemma device_read_loop_ring (user_ok : nat -> bool) (remaining : nat) :
  forall bytes_copied out d,
    circ_buffer (snd (device_read_loop user_ok remaining bytes_copied out d)) = circ_buffer d /\
    head (snd (device_read_loop user_ok remaining bytes_copied out d)) = head d.
Proof.
  induction remaining as [|remaining' IH]; intros bytes_copied out d; [split; reflexivity|].
  cbn [device_read_loop]. destruct (_ =? _); [split; reflexivity|].
  destruct (user_ok bytes_copied); [|split; reflexivity].
  destruct (IH (S bytes_copied) (out ++ [slot (circ_buffer d) (tail d)])
               (set_tail (C.rem (tail d + 1) CIRC_BUFFER_SIZE) d)) as [Hbuf Hhead].
  rewrite Hbuf, Hhead. split; reflexivity.
Qed.

(** A read into a buffer that takes every byte offered. *)
Lemma device_read_accepting (d : driver) (user_ok : nat -> bool) (count : nat) :
  ring_wf d ->
  (forall i, (i < count)%nat -> Z.of_nat i < used d -> user_ok i = true) ->
  exists d',
    device_read user_ok count d
    = (Z.of_nat (Nat.min count (List.length (unread d))),
       firstn (Nat.min count (List.length (unread d))) (unread d), d') /\
    ring_wf d' /\
    unread d' = skipn (Nat.min count (List.length (unread d))) (unread d) /\
    used d' = used d - Z.of_nat (Nat.min count (List.length (unread d))) /\
    device_fields d' = device_fields d.
Proof.
  intros Hwf Hok. unfold device_read.
  destruct (device_read_loop_drained user_ok count 0 [] d Hwf) as [k Hk].
  destruct (device_read_loop _ _ _ _ _) as [[ret out] d'].
  destruct Hk as (Hrem & Hle & _ & Hout & Hunread & Hused & Hwf' & _ & Hdev & Hret).
  pose proof (used_unread d Hwf) as Hlen.
  assert (Hk : k = Nat.min count (List.length (unread d))).
  { destruct Hret as [(_ & [Hstop|Hstop])|(_ & Hlt & Hlt' & Hbad)]; try lia.
    cbn [Nat.add] in Hbad. rewrite Hok in Hbad by lia. discriminate. }
  rewrite <- Hk. exists d'.
  destruct Hret as [(Hret & _)|(_ & Hlt & Hlt' & Hbad)].
  - cbn [Nat.add app] in *. subst ret out. repeat split; try apply Hwf'; assumption.
  - cbn [Nat.add] in Hbad. rewrite Hok in Hbad by lia. discriminate.
Qed.

Lemma circ_buffer_write_app_state (a b : list ascii) :
  forall d, fst (circ_buffer_write (a ++ b) d)
            = fst (circ_buffer_write b (fst (circ_buffer_write a d))).
Proof.
  induction a as [|c a IH]; intros d; [reflexivity|].
  cbn [app circ_buffer_write]. cbv zeta.
  destruct (C.rem (head d + 1) CIRC_BUFFER_SIZE =? tail d) eqn:Hfull.
  - cbn [fst]. destruct b as [|c' b]; [reflexivity|].
    cbn [circ_buffer_write]. cbv zeta. rewrite Hfull. reflexivity.
  - apply IH.
Qed.

(** X1: a read into a user buffer that accepts the bytes returns
    min(count, unread) bytes, the oldest unread ones in the order they were
    written; the younger ones stay unread.  A read changes nothing but the
    read cursor: buffer contents, write cursor, device handle, connection
    flag and cached battery level are as before. *)
Theorem read_returns_oldest_bytes (d : driver) (user_ok : nat -> bool) (count : nat) :
  ring_wf d ->
  (forall i, (i < count)%nat -> Z.of_nat i < used d -> user_ok i = true) ->
  let k := Nat.min count (List.length (unread d)) in
  let r := device_read user_ok count d in
  fst r = (Z.of_nat k, firstn k (unread d)) /\
  unread (snd r) = skipn k (unread d) /\
  circ_buffer (snd r) = circ_buffer d /\ head (snd r) = head d /\
  device_fields (snd r) = device_fields d.
Proof.
  intros Hwf Hok k r.
  destruct (device_read_accepting d user_ok count Hwf Hok)
    as (d' & Hread & _ & Hunread & _ & Hdev).
  destruct (device_read_loop_ring user_ok count 0 [] d) as [Hbuf Hhead].
  unfold r, k. fold (device_read user_ok count d) in Hbuf, Hhead.
  rewrite Hread in *. cbn [fst snd] in *. repeat split; assumption.
Qed.

Lemma read_returns_oldest_bytes_at_abc :
  let d := fst (circ_buffer_write (list_ascii_of_string "abcde")
                                  (driver_init (repeat NUL 1024))) in
  let r := device_read (fun _ => true) 2 d in
  fst r = (2, firstn 2 (unread d)) /\
  unread (snd r) = skipn 2 (unread d) /\
  circ_buffer (snd r) = circ_buffer d /\ head (snd r) = head d /\
  device_fields (snd r) = device_fields d.
Proof.
  intros d.
  apply (read_returns_oldest_bytes d (fun _ => true) 2).
  - apply circ_buffer_write_spec, driver_init_wf. reflexivity.
  - reflexivity.
Defined.

(** X2: reading in two calls gives the same bytes as reading once with the
    sum of the counts: the second call continues where the first stopped. *)
Theorem reads_concatenate (d : driver) (ok1 ok2 ok : nat -> bool) (c1 c2 : nat) :
  ring_wf d ->
  (forall i, ok1 i = true) -> (forall i, ok2 i = true) -> (forall i, ok i = true) ->
  let r1 := device_read ok1 c1 d in
  let r2 := device_read ok2 c2 (snd r1) in
  let r := device_read ok (c1 + c2) d in
  snd (fst r1) ++ snd (fst r2) = snd (fst r) /\
  fst (fst r1) + fst (fst r2) = fst (fst r) /\
  unread (snd r2) = unread (snd r).
Proof.
  intros Hwf H1 H2 H r1 r2 r.
  destruct (device_read_accepting d ok1 c1 Hwf) as (d1 & Hr1 & Hwf1 & Hu1 & _); [auto|].
  destruct (device_read_accepting d1 ok2 c2 Hwf1) as (d2 & Hr2 & _ & Hu2 & _); [auto|].
  destruct (device_read_accepting d ok (c1 + c2) Hwf) as (d' & Hr & _ & Hu & _); [auto|].
  unfold r, r2, r1. rewrite Hr1. cbn [fst snd]. rewrite Hr2, Hr. cbn [fst snd].
  rewrite Hu2, Hu, Hu1. rewrite length_skipn.
  set (l := unread d). set (n := List.length l).
  assert (Hsum : (Nat.min c1 n + Nat.min c2 (n - Nat.min c1 n) = Nat.min (c1 + c2) n)%nat)
    by lia.
  rewrite <- Hsum. repeat split.
  - rewrite <- (firstn_skipn (Nat.min c1 n) l) at 3.
    rewrite firstn_app, length_firstn.
    replace (Nat.min c1 n + Nat.min c2 (n - Nat.min c1 n) - Nat.min (Nat.min c1 n) (List.length l))%nat
      with (Nat.min c2 (n - Nat.min c1 n)) by (fold n; lia).
    f_equal. symmetry. apply firstn_all2. rewrite length_firstn. lia.
  - lia.
  - rewrite skipn_skipn. f_equal. lia.
Qed.

Lemma reads_concatenate_at_abc :
  let d := fst (circ_buffer_write (list_ascii_of_string "abcde")
                                  (driver_init (repeat NUL 1024))) in
  let r1 := device_read (fun _ => true) 2 d in
  let r2 := device_read (fun _ => true) 9 (snd r1) in
  let r := device_read (fun _ => true) (2 + 9) d in
  snd (fst r1) ++ snd (fst r2) = snd (fst r) /\
  fst (fst r1) + fst (fst r2) = fst (fst r) /\
  unread (snd r2) = unread (snd r).
Proof.
  intros d.
  apply (reads_concatenate d (fun _ => true) (fun _ => true) (fun _ => true) 2 9).
  - apply circ_buffer_write_spec, driver_init_wf. reflexivity.
  - reflexivity.
  - reflexivity.
  - reflexivity.
Defined.

(** X3: writes that follow each other without a read store what one write
    of the concatenated texts stores, and end in the same state: the ring
    holds the old unread bytes and then the longest prefix of the
    concatenation that fits, so once a text is cut short every later text is
    dropped whole until a read makes room. *)
Theorem writes_store_prefix_of_stream (texts : list (list ascii)) (d : driver) :
  ring_wf d ->
  write_all texts d = fst (circ_buffer_write (List.concat texts) d) /\
  unread (write_all texts d) = unread d ++ firstn (Z.to_nat (room d)) (List.concat texts).
Proof.
  intros Hwf.
  assert (Hstate : forall d0, write_all texts d0
                              = fst (circ_buffer_write (List.concat texts) d0)).
  { induction texts as [|t texts IH]; intros d0; [reflexivity|].
    cbn [write_all fold_left List.concat].
    fold (write_all texts (fst (circ_buffer_write t d0))).
    rewrite IH. symmetry. apply circ_buffer_write_app_state. }
  split; [apply Hstate|]. rewrite Hstate. now apply circ_buffer_write_spec.
Qed.

Lemma writes_store_prefix_of_stream_at_init :
  let d := write_bytes (repeat "x"%char 1020) (driver_init (repeat NUL 1024)) in
  let texts := [list_ascii_of_string "ab"; list_ascii_of_string "cde";
                list_ascii_of_string "f"] in
  write_all texts d = fst (circ_buffer_write (List.concat texts) d) /\
  unread (write_all texts d) = unread d ++ firstn (Z.to_nat (room d)) (List.concat texts).
Proof.
  intros d texts. apply (writes_store_prefix_of_stream texts d).
  apply write_bytes_spec, driver_init_wf. reflexivity.
Defined.

(** X4: the cells a read consumes are free at once: after a read of [k]
    bytes the room is [k] larger, and a text no longer than that room is
    stored whole behind the bytes still unread, without a warning, also
    when the cursors wrap around the end of the array. *)
Theorem read_frees_room (d : driver) (user_ok : nat -> bool) (count : nat)
    (data : list ascii) :
  ring_wf d ->
  (forall i, (i < count)%nat -> Z.of_nat i < used d -> user_ok i = true) ->
  let k := Nat.min count (List.length (unread d)) in
  let d1 := snd (device_read user_ok count d) in
  room d1 = room d + Z.of_nat k /\
  (Z.of_nat (List.length data) <= room d + Z.of_nat k ->
   circ_buffer_write data d1 = (fst (circ_buffer_write data d1), []) /\
   unread (fst (circ_buffer_write data d1)) = skipn k (unread d) ++ data).
Proof.
  intros Hwf Hok k d1.
  destruct (device_read_accepting d user_ok count Hwf Hok)
    as (d' & Hread & Hwf' & Hunread & Hused & _).
  unfold d1. rewrite Hread. cbn [snd]. fold k in Hunread, Hused.
  assert (Hroom : room d' = room d + Z.of_nat k) by (unfold room; lia).
  split; [exact Hroom|]. intros Hfit.
  destruct (circ_buffer_write_spec data d' Hwf') as (_ & _ & _ & Hw & Hfx).
  rewrite Hroom in Hw, Hfx. split.
  - destruct (circ_buffer_write data d') as [d2 fx]. cbn [fst snd] in *.
    destruct (Z.leb_spec (Z.of_nat (List.length data)) (room d + Z.of_nat k)); [|lia].
    now subst fx.
  - rewrite Hw, Hunread, firstn_all2 by lia. reflexivity.
Qed.

Lemma read_frees_room_across_wrap :
  let d := write_bytes (repeat "x"%char 1023) (driver_init (repeat NUL 1024)) in
  let data := list_ascii_of_string "wxyz" in
  let d1 := snd (device_read (fun _ => true) 4 d) in
  circ_buffer_write data d1 = (fst (circ_buffer_write data d1), []) /\
  unread (fst (circ_buffer_write data d1)) = skipn 4 (unread d) ++ data /\
  head (fst (circ_buffer_write data d1)) = 3.
Proof.
  intros d data d1.
  destruct (read_frees_room d (fun _ => true) 4 data) as [_ Hstore].
  - apply write_bytes_spec, driver_init_wf. reflexivity.
  - reflexivity.
  - destruct Hstore as [Hlog Hunread]; [vm_compute; discriminate|].
    split; [exact Hlog|]. split; [exact Hunread|]. vm_compute. reflexivity.
Defined.

(** ** The bytes of the channel along a trace *)

Lemma unread_same_ring (d d' : driver) :
  circ_buffer d' = circ_buffer d -> head d' = head d -> tail d' = tail d ->
  unread d' = unread d /\ room d' = room d.
Proof. unfold unread, room, used. intros -> -> ->. split; reflexivity. Qed.

Lemma wii_raw_event_text (stk : stack) (data : list Z) (d : driver) :
  ring_wf d ->
  unread (snd (fst (wii_raw_event stk data d)))
  = unread d ++ firstn (Z.to_nat (room d)) (raw_event_text stk data).
Proof.
  intros Hwf. unfold wii_raw_event, raw_event_text, perform_input_mapping.
  destruct (_ && _).
  - destruct (_ >=? _); [|now rewrite firstn_nil, app_nil_r].
    set (d1 := set_last_battery (nth 1 data 0) d).
    assert (Hwf1 : ring_wf d1) by now apply (ring_wf_same_ring d).
    destruct (unread_same_ring d d1) as [Hu Hr]; try reflexivity.
    rewrite <- Hu, <- Hr.
    pose proof (circ_buffer_write_spec
                  (chars (format_battery (battery_output stk) (nth 1 data 0))) d1 Hwf1)
      as (_ & _ & _ & Hunread & _).
    destruct (circ_buffer_write _ d1) as [d' fx]. exact Hunread.
  - destruct (_ <? _); [now rewrite firstn_nil, app_nil_r|].
    pose proof (circ_buffer_write_spec
                  (chars (format_buttons (mapping_output stk) (nth 0 data 0)
                                         (nth 1 data 0) (nth 2 data 0))) d Hwf)
      as (_ & _ & _ & Hunread & _).
    destruct (circ_buffer_write _ d) as [d' fx]. exact Hunread.
Qed.

(** X5: whatever calls arrive in whatever order (reports, reads into good
    or faulting user buffers, probes, removes, ioctls), the bytes copied out
    so far followed by the bytes still unread are the bytes unread at the
    start followed by the bytes stored since: nothing that entered the ring
    is lost, repeated, reordered or altered, and only reports add bytes. *)
Theorem channel_conserves_bytes (evs : list event) :
  forall d, ring_wf d ->
    delivered d evs ++ unread (run d evs) = unread d ++ stored d evs.
Proof.
  induction evs as [|e evs IH]; intros d Hwf.
  - simpl. now rewrite app_nil_r.
  - cbn [delivered stored run fold_left]. fold (run (step d e) evs).
    rewrite <- app_assoc, (IH _ (step_wf d e Hwf)), !app_assoc. f_equal.
    destruct e as [hdev p s|hdev|stk data|user_ok count|cmd hid_ret];
      cbn [bytes_out bytes_in step]; rewrite ?app_nil_r; cbn [app].
    + unfold wii_probe. destruct (negb (p =? 0)); [reflexivity|].
      destruct (negb (s =? 0)); reflexivity.
    + reflexivity.
    + now apply wii_raw_event_text.
    + unfold device_read.
      destruct (device_read_loop_drained user_ok count 0 [] d Hwf) as [k Hk].
      destruct (device_read_loop _ _ _ _ _) as [[ret out] d'].
      destruct Hk as (_ & _ & _ & Hout & Hunread & _). cbn [fst snd app] in *.
      rewrite Hout, Hunread. apply firstn_skipn.
    + unfold device_ioctl. destruct (_ =? _); [|reflexivity].
      destruct (wii_hid_dev d); reflexivity.
Qed.

Lemma channel_conserves_bytes_at_init :
  let stk := mkStack (repeat "z"%char 256) (repeat "z"%char 64) in
  let d := driver_init (repeat NUL 1024) in
  let evs := [EvRawEvent stk [32; 90]; EvRead (fun i => Nat.ltb i 3) 5;
              EvRemove 1%positive; EvRawEvent stk [49; 1; 0]; EvRead (fun _ => true) 7] in
  delivered d evs ++ unread (run d evs) = unread d ++ stored d evs.
Proof.
  intros stk d evs. apply (channel_conserves_bytes evs d).
  apply driver_init_wf. reflexivity.
Defined.

(** ** The cached state along a trace *)

Lemma step_last_battery (d : driver) (e : event) :
  wii_last_battery (step d e)
  = match report_level e with
    | Some l => l
    | None => wii_last_battery d
    end.
Proof.
  destruct e as [hdev p s|hdev|stk data|user_ok count|cmd hid_ret];
    cbn [step report_level].
  - unfold wii_probe. destruct (negb (p =? 0)); [reflexivity|].
    destruct (negb (s =? 0)); reflexivity.
  - reflexivity.
  - unfold wii_raw_event, perform_input_mapping.
    destruct (Z.gtb_spec (Z.of_nat (List.length data)) 0) as [Hpos|Hzero];
      destruct (Nat.ltb_spec 0 (List.length data)) as [Hpos'|Hzero']; try lia;
      cbn [andb].
    + destruct (nth 0 data 0 =? 32); cbn [andb].
      * destruct (Z.geb_spec (Z.of_nat (List.length data)) 2) as [Htwo|Hone];
          destruct (Nat.leb_spec 2 (List.length data)) as [Htwo'|Hone']; try lia;
          [|reflexivity].
        pose proof (circ_buffer_write_device
                      (chars (format_battery (battery_output stk) (nth 1 data 0)))
                      (set_last_battery (nth 1 data 0) d)) as Hdev.
        destruct (circ_buffer_write _ _) as [d' fx]. cbn [fst snd] in *.
        unfold device_fields in Hdev. now injection Hdev.
      * destruct (_ <? _); [reflexivity|].
        pose proof (circ_buffer_write_device
                      (chars (format_buttons (mapping_output stk) (nth 0 data 0)
                                             (nth 1 data 0) (nth 2 data 0))) d) as Hdev.
        destruct (circ_buffer_write _ _) as [d' fx]. cbn [fst snd] in *.
        unfold device_fields in Hdev. now injection Hdev.
    + destruct (_ <? _); [reflexivity|].
      pose proof (circ_buffer_write_device
                    (chars (format_buttons (mapping_output stk) (nth 0 data 0)
                                           (nth 1 data 0) (nth 2 data 0))) d) as Hdev.
      destruct (circ_buffer_write _ _) as [d' fx]. cbn [fst snd] in *.
      unfold device_fields in Hdev. now injection Hdev.
  - unfold device_read.
    pose proof (device_read_loop_device user_ok count 0 [] d) as Hdev.
    unfold device_fields in Hdev. now injection Hdev.
  - unfold device_ioctl. destruct (_ =? _); [|reflexivity].
    destruct (wii_hid_dev d); reflexivity.
Qed.

Lemma run_last_battery (evs : list event) :
  forall d, wii_last_battery (run d evs)
            = fold_left (fun level e => match report_level e with
                                        | Some l => l
                                        | None => level
                                        end) evs (wii_last_battery d).
Proof.
  induction evs as [|e evs IH]; intros d; [reflexivity|].
  cbn [run fold_left]. fold (run (step d e) evs).
  now rewrite IH, step_last_battery.
Qed.

Lemma last_level_snoc (evs : list event) (e : event) :
  last_level (evs ++ [e])
  = match report_level e with
    | Some l => l
    | None => last_level evs
    end.
Proof. unfold last_level. now rewrite fold_left_app. Qed.

(** X6: the cached battery level is the level byte of the latest report
    with id 0x20 and at least two bytes, and -1 while no such report has
    arrived; probes, removes, reads, ioctls and all other reports leave it
    alone, so it survives a disconnect.  With levels that are bytes it stays
    within -1..255 and is -1 exactly when no level has been reported. *)
Theorem battery_cache_follows_reports (garbage : list ascii) (evs : list event) :
  levels_are_bytes evs ->
  wii_last_battery (run (driver_init garbage) evs) = last_level evs /\
  -1 <= last_level evs <= 255 /\
  (last_level evs = -1 <-> Forall (fun e => report_level e = None) evs).
Proof.
  intros Hbytes. split; [apply run_last_battery|].
  induction evs as [|e evs IH] using rev_ind.
  - unfold last_level. simpl. split; [lia|]. split; auto.
  - unfold levels_are_bytes in Hbytes. apply Forall_app in Hbytes.
    destruct Hbytes as [Hevs He]. apply Forall_inv in He.
    destruct (IH Hevs) as [Hrange Hiff]. rewrite last_level_snoc, Forall_app.
    destruct (report_level e) as [l|] eqn:Hl.
    + specialize (He l eq_refl). unfold is_u8 in He. split; [lia|]. split.
      * lia.
      * intros [_ Hnone]. apply Forall_inv in Hnone. cbv beta in Hnone. congruence.
    + split; [exact Hrange|]. rewrite Hiff. split.
      * intros H. split; [exact H|]. constructor; [exact Hl|constructor].
      * intros [H _]. exact H.
Qed.

Lemma battery_cache_survives_remove :
  let stk := mkStack (repeat "z"%char 256) (repeat "z"%char 64) in
  let evs := [EvProbe 1%positive 0 0; EvRawEvent stk [32; 90]; EvRawEvent stk [32];
              EvRawEvent stk [49; 1; 0]; EvRemove 1%positive] in
  wii_last_battery (run (driver_init (repeat NUL 1024)) evs) = 90.
Proof.
  intros stk evs.
  destruct (battery_cache_follows_reports (repeat NUL 1024) evs) as [Hcache _].
  - unfold levels_are_bytes, evs.
    repeat (apply Forall_cons;
            [intros l Hl; simpl in Hl; try discriminate;
             injection Hl as <-; unfold is_u8; lia|]).
    apply Forall_nil.
  - rewrite Hcache. reflexivity.
Defined.

Lemma step_linked (d : driver) (e : event) : linked d -> linked (step d e).
Proof.
  intros Hlinked. destruct e as [hdev p s|hdev|stk data|user_ok count|cmd hid_ret];
    cbn [step].
  - unfold wii_probe. destruct (negb (p =? 0)); [exact Hlinked|].
    destruct (negb (s =? 0)); [exact Hlinked|]. right. exists hdev. split; reflexivity.
  - left. split; reflexivity.
  - destruct (wii_raw_event_device stk data d) as [Hh Hc].
    unfold linked. rewrite Hh, Hc. exact Hlinked.
  - unfold device_read.
    pose proof (device_read_loop_device user_ok count 0 [] d) as Hdev.
    unfold device_fields in Hdev. injection Hdev as Hh Hc _.
    unfold linked. rewrite Hh, Hc. exact Hlinked.
  - unfold device_ioctl. destruct (_ =? _); [|exact Hlinked].
    destruct (wii_hid_dev d) eqn:Hdev; cbn [fst snd]; exact Hlinked.
Qed.

Lemma run_linked (evs : list event) : forall d, linked d -> linked (run d evs).
Proof.
  induction evs as [|e evs IH]; intros d Hlinked; [exact Hlinked|].
  cbn [run fold_left]. fold (run (step d e) evs). apply IH. now apply step_linked.
Qed.

(** X7: in every state the driver reaches, the connection flag is 1 if a
    handle is held and 0 if not, and the text of /proc/wii_remote says
    [Connected: Yes] exactly when a device has attached and has not been
    removed since, followed by the cached battery level as [%d] prints it
    ([-1] before the first level). *)
Theorem proc_shows_cached_state (garbage : list ascii) (evs : list event) :
  let d := run (driver_init garbage) evs in
  linked d /\
  (attached evs = true <-> wii_hid_dev d <> None) /\
  wii_proc_show [] d
  = (0, list_ascii_of_string
          ("Wii Remote Driver State:" ++ String NL
           ("  Connected: " ++ (if attached evs then "Yes" else "No") ++ String NL
            ("  Last Battery: " ++ fmt_d (last_level evs) ++ String NL "")))).
Proof.
  intros d.
  assert (Hlinked : linked d).
  { apply run_linked. left. split; reflexivity. }
  assert (Hatt : attached evs = true <-> wii_hid_dev d <> None).
  { pose proof (handle_after_run garbage evs) as Hh. fold d in Hh. unfold attached.
    destruct (existsb attaches evs); destruct (last_is_detach evs); cbn [andb negb];
      split; intros H; try discriminate; try reflexivity.
    - exfalso. apply H, Hh. now right.
    - intros Hnone. apply Hh in Hnone. destruct Hnone; discriminate.
    - exfalso. apply H, Hh. now left.
    - exfalso. apply H, Hh. now left. }
  split; [exact Hlinked|]. split; [exact Hatt|].
  unfold wii_proc_show, seq_printf. f_equal.
  pose proof (run_last_battery evs (driver_init garbage)) as Hb.
  fold d in Hb. cbn [driver_init wii_last_battery] in Hb. fold (last_level evs) in Hb.
  rewrite Hb. cbn [app].
  assert (Hflag : (wii_connected d =? 0) = negb (attached evs)).
  { destruct Hlinked as [[Hh Hc]|(hdev & Hh & Hc)]; rewrite Hc; cbn [Z.eqb].
    - destruct (attached evs); [|reflexivity]. exfalso. now apply Hatt.
    - destruct (attached evs) eqn:Ha; [reflexivity|].
      assert (Hne : wii_hid_dev d <> None) by (rewrite Hh; discriminate).
      apply Hatt in Hne. discriminate. }
  rewrite Hflag. rewrite <- !list_ascii_app.
  destruct (attached evs); cbn [negb]; reflexivity.
Qed.

(** ** Frames handed to the transport *)

Lemma circ_buffer_write_no_request (data : list ascii) :
  forall d, filter is_request (snd (circ_buffer_write data d)) = [].
Proof.
  induction data as [|c rest IH]; intros d; [reflexivity|].
  cbn [circ_buffer_write]. cbv zeta. destruct (_ =? _); [reflexivity|]. apply IH.
Qed.

Lemma wii_raw_event_no_request (stk : stack) (data : list Z) (d : driver) :
  filter is_request (snd (wii_raw_event stk data d)) = [].
Proof.
  unfold wii_raw_event, perform_input_mapping.
  destruct (_ && _).
  - destruct (_ >=? _); [|reflexivity].
    pose proof (circ_buffer_write_no_request
                  (chars (format_battery (battery_output stk) (nth 1 data 0)))
                  (set_last_battery (nth 1 data 0) d)) as Hfx.
    destruct (circ_buffer_write _ _) as [d' fx]. cbn [fst snd] in *.
    rewrite !filter_app, Hfx. reflexivity.
  - destruct (_ <? _); [reflexivity|].
    pose proof (circ_buffer_write_no_request
                  (chars (format_buttons (mapping_output stk) (nth 0 data 0)
                                         (nth 1 data 0) (nth 2 data 0))) d) as Hfx.
    destruct (circ_buffer_write _ _) as [d' fx]. cbn [fst snd] in *.
    rewrite !filter_app, Hfx. reflexivity.
Qed.

(** X8: over any trace of calls the driver hands to the transport one
    frame for each status ioctl that is issued while a handle is held, and
    nothing else: each frame is the output report [0x15, 0x00], sent with
    SET_REPORT to the device of the latest attach; reports, reads, probes,
    removes, other ioctls, and status ioctls without a device send nothing. *)
Theorem only_status_frames_are_sent (evs : list event) :
  forall d, filter is_request (run_fx d evs) = status_frames (wii_hid_dev d) evs.
Proof.
  induction evs as [|e evs IH]; intros d; [reflexivity|].
  cbn [run_fx status_frames]. rewrite filter_app, IH, step_handle.
  fold (handle_after (wii_hid_dev d) e). f_equal.
  destruct e as [hdev p s|hdev|stk data|user_ok count|cmd hid_ret]; cbn [step_fx].
  - unfold wii_probe. destruct (negb (p =? 0)); [reflexivity|].
    destruct (negb (s =? 0)); reflexivity.
  - reflexivity.
  - apply wii_raw_event_no_request.
  - reflexivity.
  - unfold device_ioctl. destruct (wii_hid_dev d) as [hdev|].
    + destruct (_ =? _); [|reflexivity].
      cbn [snd app filter is_request nth]. destruct (hid_ret <? 0); reflexivity.
    + destruct (_ =? _); reflexivity.
Qed.

(** ** The texts are lines *)

Lemma no_newline_app (l l' : list ascii) :
  no_newline (l ++ l') = no_newline l && no_newline l'.
Proof. apply forallb_app. Qed.

Lemma no_newline_In (l : list ascii) : no_newline l = true -> ~ In NL l.
Proof.
  unfold no_newline. rewrite forallb_forall. intros Hall Hin.
  specialize (Hall NL Hin). now rewrite Ascii.eqb_refl in Hall.
Qed.

Lemma no_newline_firstn (n : nat) (l : list ascii) :
  no_newline l = true -> no_newline (firstn n l) = true.
Proof.
  intros Hl. rewrite <- (firstn_skipn n l), no_newline_app in Hl.
  apply andb_true_iff in Hl. apply Hl.
Qed.

Lemma decimal_no_newline (n : Z) :
  is_u8 n -> no_newline (list_ascii_of_string (decimal n)) = true.
Proof.
  intros Hn.
  apply (u8_forallb (fun k => no_newline (list_ascii_of_string (decimal k)))); [|exact Hn].
  vm_compute. reflexivity.
Qed.

Lemma pressed_names_no_newline (byte1 byte2 : Z) :
  no_newline (pressed_names byte1 byte2) = true /\
  (List.length (pressed_names byte1 byte2) <= 63)%nat.
Proof.
  unfold pressed_names.
  set (f := fun b : nat * Z * string => list_ascii_of_string (button_name b ++ " ")).
  assert (Hall : forallb (fun b => no_newline (f b)) button_table = true) by reflexivity.
  assert (Hlen : (List.length (List.concat (map f button_table)) <= 63)%nat)
    by (vm_compute; lia).
  enough (Hgen : forall table,
             forallb (fun b => no_newline (f b)) table = true ->
             no_newline (List.concat (map f (filter (button_flag byte1 byte2) table))) = true /\
             (List.length (List.concat (map f (filter (button_flag byte1 byte2) table)))
              <= List.length (List.concat (map f table)))%nat).
  { destruct (Hgen button_table Hall) as [Hn Hl]. split; [exact Hn|lia]. }
  clear Hall Hlen.
  induction table as [|b table IH]; intros Hall; [split; [reflexivity|simpl; lia]|].
  cbn [forallb] in Hall. apply andb_true_iff in Hall. destruct Hall as [Hb Hall].
  destruct (IH Hall) as [IHn IHl].
  cbn [filter]. destruct (button_flag byte1 byte2 b); cbn [map List.concat].
  - rewrite no_newline_app, Hb, IHn, !length_app. split; [reflexivity|lia].
  - rewrite length_app. split; [assumption|lia].
Qed.

Lemma button_entry_line (report_id byte1 byte2 : Z) :
  is_u8 report_id ->
  exists body,
    button_entry report_id byte1 byte2
    = list_ascii_of_string "Report: ID=" ++ body ++ [NL] /\
    no_newline (list_ascii_of_string "Report: ID=" ++ body) = true /\
    (3 <= List.length body <= 68)%nat.
Proof.
  intros Hid.
  exists (list_ascii_of_string (decimal report_id ++ ", ") ++ pressed_names byte1 byte2).
  destruct (pressed_names_no_newline byte1 byte2) as [Hn Hl].
  pose proof (decimal_length report_id Hid) as Hd.
  pose proof (decimal_no_newline report_id Hid) as Hdn.
  unfold button_entry. rewrite !list_ascii_app, <- !app_assoc.
  split; [reflexivity|]. split.
  - rewrite !no_newline_app, Hdn, Hn. reflexivity.
  - rewrite !length_app, length_list_ascii. simpl List.length. lia.
Qed.

Lemma battery_entry_line (level : Z) :
  is_u8 level ->
  exists body,
    battery_entry level = list_ascii_of_string "Battery: " ++ body ++ [NL] /\
    no_newline (list_ascii_of_string "Battery: " ++ body) = true /\
    (1 <= List.length body <= 3)%nat.
Proof.
  intros Hlevel. exists (list_ascii_of_string (decimal level)).
  pose proof (decimal_length level Hlevel) as Hd.
  pose proof (decimal_no_newline level Hlevel) as Hdn.
  unfold battery_entry. rewrite list_ascii_app, <- app_assoc.
  split; [reflexivity|]. split.
  - rewrite no_newline_app, Hdn. reflexivity.
  - rewrite length_list_ascii. lia.
Qed.

(** X9: every text the driver builds for the channel is one line.  A
    button text starts with ["Report: ID="], a battery text with
    ["Battery: "]; each ends in its only newline; a button text has 15 to 80
    characters and a battery text 11 to 13, whatever the stack arrays held
    and whatever the button bytes are. *)
Theorem texts_are_single_lines (stk : stack) (report_id byte1 byte2 level : Z) :
  stack_wf stk -> is_u8 report_id -> is_u8 level ->
  (exists body,
     chars (format_buttons (mapping_output stk) report_id byte1 byte2)
     = list_ascii_of_string "Report: ID=" ++ body ++ [NL] /\
     ~ In NL (list_ascii_of_string "Report: ID=" ++ body) /\
     (15 <= List.length (list_ascii_of_string "Report: ID=" ++ body ++ [NL]) <= 80)%nat) /\
  (exists body,
     chars (format_battery (battery_output stk) level)
     = list_ascii_of_string "Battery: " ++ body ++ [NL] /\
     ~ In NL (list_ascii_of_string "Battery: " ++ body) /\
     (11 <= List.length (list_ascii_of_string "Battery: " ++ body ++ [NL]) <= 13)%nat).
Proof.
  intros [Hmap Hbat] Hid Hlevel. split.
  - destruct (button_entry_line report_id byte1 byte2 Hid) as (body & Heq & Hn & Hl).
    exists body. rewrite format_buttons_chars by assumption.
    split; [exact Heq|]. split; [now apply no_newline_In|].
    rewrite !length_app. simpl List.length. lia.
  - destruct (battery_entry_line level Hlevel) as (body & Heq & Hn & Hl).
    exists body. rewrite format_battery_chars by assumption.
    split; [exact Heq|]. split; [now apply no_newline_In|].
    rewrite !length_app. simpl List.length. lia.
Qed.

Lemma texts_are_single_lines_at_0x31 :
  let stk := mkStack (repeat "z"%char 256) (repeat "z"%char 64) in
  (exists body,
     chars (format_buttons (mapping_output stk) 49 9 5)
     = list_ascii_of_string "Report: ID=" ++ body ++ [NL] /\
     ~ In NL (list_ascii_of_string "Report: ID=" ++ body) /\
     (15 <= List.length (list_ascii_of_string "Report: ID=" ++ body ++ [NL]) <= 80)%nat) /\
  (exists body,
     chars (format_battery (battery_output stk) 90)
     = list_ascii_of_string "Battery: " ++ body ++ [NL] /\
     ~ In NL (list_ascii_of_string "Battery: " ++ body) /\
     (11 <= List.length (list_ascii_of_string "Battery: " ++ body ++ [NL]) <= 13)%nat).
Proof.
  intros stk. apply (texts_are_single_lines stk 49 9 5 90).
  - split; reflexivity.
  - unfold is_u8. lia.
  - unfold is_u8. lia.
Defined.

Lemma raw_event_text_line (stk : stack) (data : list Z) :
  stack_wf stk -> (forall i, is_u8 (nth i data 0)) ->
  raw_event_text stk data = [] \/
  exists body, raw_event_text stk data = body ++ [NL] /\ no_newline body = true.
Proof.
  intros [Hmap Hbat] Hbytes. unfold raw_event_text.
  destruct (_ && _).
  - destruct (_ >=? _); [|now left]. right.
    rewrite format_battery_chars by auto.
    destruct (battery_entry_line (nth 1 data 0) (Hbytes 1%nat)) as (body & Heq & Hn & _).
    exists (list_ascii_of_string "Battery: " ++ body).
    rewrite Heq, <- app_assoc. split; [reflexivity|exact Hn].
  - destruct (_ <? _); [now left|]. right.
    rewrite format_buttons_chars by auto.
    destruct (button_entry_line (nth 0 data 0) (nth 1 data 0) (nth 2 data 0) (Hbytes 0%nat))
      as (body & Heq & Hn & _).
    exists (list_ascii_of_string "Report: ID=" ++ body).
    rewrite Heq, <- app_assoc. split; [reflexivity|exact Hn].
Qed.

(** The call of [circ_buffer_write] inside [wii_raw_event], if any. *)
Lemma wii_raw_event_write (stk : stack) (data : list Z) (d : driver) :
  exists d1 log,
    circ_buffer d1 = circ_buffer d /\ head d1 = head d /\ tail d1 = tail d /\
    wii_raw_event stk data d
    = (0, fst (circ_buffer_write (raw_event_text stk data) d1),
       log ++ snd (circ_buffer_write (raw_event_text stk data) d1)).
Proof.
  unfold wii_raw_event, raw_event_text, perform_input_mapping.
  destruct (_ && _).
  - destruct (_ >=? _).
    + exists (set_last_battery (nth 1 data 0) d),
             [Printk (MsgReceived data); Printk MsgBatteryDetected].
      repeat split. destruct (circ_buffer_write _ _) as [d' fx]. reflexivity.
    + exists d, [Printk (MsgReceived data); Printk MsgBatteryDetected]. repeat split.
  - destruct (_ <? _).
    + exists d, [Printk (MsgReceived data); Printk MsgTooShort]. repeat split.
    + exists d, [Printk (MsgReceived data)].
      repeat split. destruct (circ_buffer_write _ _) as [d' fx]. reflexivity.
Qed.

(** X10: a report that arrives when the ring has fewer free cells than its
    text is long leaves a fragment without a newline behind the unread
    bytes and logs the buffer-full warning; the rest of the line is lost, so
    the next text that gets in continues the same line for the reader. *)
Theorem truncated_text_has_no_newline (stk : stack) (data : list Z) (d : driver) :
  stack_wf stk -> ring_wf d ->
  (forall i, is_u8 (nth i data 0)) ->
  (Z.to_nat (room d) < List.length (raw_event_text stk data))%nat ->
  let fragment := firstn (Z.to_nat (room d)) (raw_event_text stk data) in
  unread (snd (fst (wii_raw_event stk data d))) = unread d ++ fragment /\
  ~ In NL fragment /\
  In (Printk MsgBufferFull) (snd (wii_raw_event stk data d)).
Proof.
  intros Hstk Hwf Hbytes Hshort fragment.
  split; [now apply wii_raw_event_text|]. split.
  - apply no_newline_In. unfold fragment.
    destruct (raw_event_text_line stk data Hstk Hbytes) as [Hnil|(body & Heq & Hn)].
    + rewrite Hnil in Hshort. simpl in Hshort. lia.
    + rewrite Heq in *. rewrite length_app in Hshort. simpl in Hshort.
      rewrite firstn_app.
      replace (Z.to_nat (room d) - List.length body)%nat with 0%nat by lia.
      rewrite firstn_0, app_nil_r. now apply no_newline_firstn.
  - destruct (wii_raw_event_write stk data d) as (d1 & log & Hbuf & Hhead & Htail & Heq).
    rewrite Heq. cbn [snd]. apply in_or_app. right.
    assert (Hwf1 : ring_wf d1) by now apply (ring_wf_same_ring d).
    destruct (unread_same_ring d d1 Hbuf Hhead Htail) as [_ Hroom].
    destruct (circ_buffer_write_spec (raw_event_text stk data) d1 Hwf1)
      as (_ & _ & _ & _ & Hfx).
    rewrite Hfx, Hroom. pose proof (used_range d Hwf) as Hu.
    destruct (Z.leb_spec (Z.of_nat (List.length (raw_event_text stk data))) (room d)).
    + unfold room, CIRC_BUFFER_SIZE in *. lia.
    + now left.
Qed.

Lemma truncated_text_at_full_minus_5 :
  let stk := mkStack (repeat "z"%char 256) (repeat "z"%char 64) in
  let d := write_bytes (repeat "x"%char 1018) (driver_init (repeat NUL 1024)) in
  unread (snd (fst (wii_raw_event stk [32; 90] d)))
  = unread d ++ list_ascii_of_string "Batte" /\
  ~ In NL (list_ascii_of_string "Batte") /\
  In (Printk MsgBufferFull) (snd (wii_raw_event stk [32; 90] d)).
Proof.
  intros stk d.
  apply (truncated_text_has_no_newline stk [32; 90] d).
  - split; reflexivity.
  - apply write_bytes_spec, driver_init_wf. reflexivity.
  - intros [|[|[|i]]]; unfold is_u8; simpl; lia.
  - vm_compute. lia.
Defined.

(** ** Bits that matter, and reading a line back *)

Lemma button_flag_masked (byte1 byte2 : Z) (b : nat * Z * string) :
  In b button_table ->
  button_flag (Z.land byte1 127) (Z.land byte2 15) b = button_flag byte1 byte2 b.
Proof.
  intros Hin. unfold button_table in Hin. cbn [In] in Hin.
  repeat (destruct Hin as [<-|Hin];
          [cbn [button_flag Nat.eqb]; rewrite Z.land_spec; apply andb_true_r|]).
  contradiction.
Qed.

Lemma button_entry_masked (report_id byte1 byte2 : Z) :
  button_entry report_id (Z.land byte1 127) (Z.land byte2 15)
  = button_entry report_id byte1 byte2.
Proof.
  unfold button_entry, pressed_names. do 4 f_equal.
  apply filter_ext_in. intros b Hin. now apply button_flag_masked.
Qed.

(** X11: bit 7 of the first button byte and bits 4 to 7 of the second
    never reach the output: a report and the same report with these bits
    cleared give the same text. *)
Theorem unused_bits_are_ignored (garbage : list ascii) (report_id byte1 byte2 : Z) :
  List.length garbage = 256%nat -> is_u8 report_id ->
  chars (format_buttons garbage report_id byte1 byte2)
  = chars (format_buttons garbage report_id (Z.land byte1 127) (Z.land byte2 15)).
Proof.
  intros Hlen Hid. rewrite !format_buttons_chars by assumption.
  symmetry. apply button_entry_masked.
Qed.

Lemma unused_bits_are_ignored_at_0xFF :
  chars (format_buttons (repeat "z"%char 256) 49 255 255)
  = chars (format_buttons (repeat "z"%char 256) 49 127 15).
Proof.
  apply (unused_bits_are_ignored (repeat "z"%char 256) 49 255 255).
  - reflexivity.
  - unfold is_u8. lia.
Defined.

Lemma lacks_split (c : ascii) (l : list ascii) :
  forall l' r r',
    lacks c l = true -> lacks c l' = true ->
    l ++ c :: r = l' ++ c :: r' -> l = l' /\ r = r'.
Proof.
  induction l as [|a l IH]; intros l' r r' Hl Hl' Heq.
  - destruct l' as [|a' l']; cbn [app] in Heq.
    + injection Heq as ->. split; reflexivity.
    + injection Heq as <- _. cbn [lacks forallb] in Hl'.
      now rewrite Ascii.eqb_refl in Hl'.
  - cbn [lacks forallb] in Hl. apply andb_true_iff in Hl. destruct Hl as [Ha Hl].
    destruct l' as [|a' l']; cbn [app] in Heq.
    + injection Heq as -> _. now rewrite Ascii.eqb_refl in Ha.
    + injection Heq as <- Heq.
      cbn [lacks forallb] in Hl'. apply andb_true_iff in Hl'. destruct Hl' as [_ Hl'].
      destruct (IH l' r r' Hl Hl' Heq) as [-> ->]. split; reflexivity.
Qed.

Lemma decimal_lacks_comma (n : Z) :
  is_u8 n -> lacks "," (list_ascii_of_string (decimal n)) = true.
Proof.
  intros Hn.
  apply (u8_forallb (fun k => lacks "," (list_ascii_of_string (decimal k)))); [|exact Hn].
  vm_compute. reflexivity.
Qed.

Lemma list_ascii_of_string_inj (s t : string) :
  list_ascii_of_string s = list_ascii_of_string t -> s = t.
Proof.
  intros Heq. rewrite <- (string_of_list_ascii_of_string s),
                <- (string_of_list_ascii_of_string t). now rewrite Heq.
Qed.

Lemma decimal_inj (n n' : Z) : 0 <= n -> 0 <= n' -> decimal n = decimal n' -> n = n'.
Proof.
  intros Hn Hn' Heq. unfold decimal in Heq.
  assert (Hnil : forall m, N.to_uint m <> Decimal.Nil).
  { intros [|p]; [discriminate|apply DecimalPos.Unsigned.to_uint_nonnil]. }
  apply (f_equal NilZero.uint_of_string) in Heq.
  rewrite !NilZero.usu in Heq by apply Hnil.
  injection Heq as Heq. apply DecimalN.Unsigned.to_uint_inj in Heq. lia.
Qed.

Lemma pressed_names_render (byte1 byte2 : Z) :
  pressed_names byte1 byte2 = render_names (map (button_flag byte1 byte2) button_table).
Proof.
  unfold pressed_names, render_names.
  induction button_table as [|b bs IH]; [reflexivity|].
  cbn [map combine filter fst snd List.concat].
  destruct (button_flag byte1 byte2 b); cbn [map List.concat]; now rewrite IH.
Qed.

Lemma all_flags_complete (n : nat) :
  forall flags, List.length flags = n -> In flags (all_flags n).
Proof.
  induction n as [|n IH]; intros flags Hlen.
  - destruct flags; [now left|discriminate].
  - destruct flags as [|f flags]; [discriminate|]. injection Hlen as Hlen.
    cbn [all_flags]. apply in_or_app. destruct f; [left|right];
      apply in_map; now apply IH.
Qed.

Lemma flags_eqb_eq (f : list bool) : forall g, flags_eqb f g = true -> f = g.
Proof.
  unfold flags_eqb. induction f as [|a f IH]; intros [|b g] H;
    try reflexivity; try discriminate.
  cbn [List.length combine forallb fst snd] in H.
  apply andb_true_iff in H. destruct H as [Hlen H].
  apply andb_true_iff in H. destruct H as [Hab H].
  apply Bool.eqb_prop in Hab. subst b. f_equal. apply IH.
  change (S (List.length f) =? S (List.length g))%nat
    with (List.length f =? List.length g)%nat in Hlen.
  now rewrite Hlen, H.
Qed.

Lemma render_names_read_back (flags : list bool) :
  List.length flags = 11%nat -> names_to_flags (render_names flags) = flags.
Proof.
  intros Hlen. apply flags_eqb_eq.
  assert (Hall : forallb (fun f => flags_eqb (names_to_flags (render_names f)) f)
                         (all_flags 11) = true) by (vm_compute; reflexivity).
  rewrite forallb_forall in Hall. apply Hall. now apply all_flags_complete.
Qed.

Lemma land_low_bits (b b' m : Z) :
  0 <= m ->
  (forall k, 0 <= k <= Z.log2 m -> Z.testbit b k = Z.testbit b' k) ->
  Z.land b m = Z.land b' m.
Proof.
  intros Hm Hbits. apply Z.bits_inj'. intros k Hk. rewrite !Z.land_spec.
  destruct (Z.le_gt_cases k (Z.log2 m)) as [Hle|Hgt].
  - rewrite (Hbits k) by lia. reflexivity.
  - rewrite (Z.bits_above_log2 m k) by lia. now rewrite !andb_false_r.
Qed.

(** X12: the text of a button report can be read back: two reports give
    the same line only if they have the same report id and the same eleven
    button bits, so no two button states are confused by a reader of the
    channel. *)
Theorem button_line_determines_report (garbage garbage' : list ascii)
    (report_id byte1 byte2 report_id' byte1' byte2' : Z) :
  List.length garbage = 256%nat -> List.length garbage' = 256%nat ->
  is_u8 report_id -> is_u8 report_id' ->
  chars (format_buttons garbage report_id byte1 byte2)
  = chars (format_buttons garbage' report_id' byte1' byte2') ->
  report_id = report_id' /\
  Z.land byte1 127 = Z.land byte1' 127 /\ Z.land byte2 15 = Z.land byte2' 15.
Proof.
  intros Hlen Hlen' Hid Hid' Heq.
  rewrite !format_buttons_chars in Heq by assumption.
  unfold button_entry in Heq. rewrite !list_ascii_app, <- !app_assoc in Heq.
  apply app_inv_head in Heq.
  change (list_ascii_of_string ", ") with [","%char; " "%char] in Heq.
  cbn [app] in Heq.
  apply lacks_split in Heq; try now apply decimal_lacks_comma.
  destruct Heq as [Hdec Hrest].
  apply list_ascii_of_string_inj, decimal_inj in Hdec; try (unfold is_u8 in *; lia).
  split; [exact Hdec|].
  injection Hrest as Hrest. apply app_inv_tail in Hrest.
  rewrite !pressed_names_render in Hrest.
  apply (f_equal names_to_flags) in Hrest.
  rewrite !render_names_read_back in Hrest by (rewrite length_map; reflexivity).
  unfold button_table in Hrest. cbn [map button_flag Nat.eqb] in Hrest.
  injection Hrest as H0 H1 H2 H3 H4 H5 H6 HA HB Hone Htwo.
  split.
  - apply land_low_bits; [lia|]. change (Z.log2 127) with 6. intros k Hk.
    assert (Hcases : k = 0 \/ k = 1 \/ k = 2 \/ k = 3 \/ k = 4 \/ k = 5 \/ k = 6) by lia.
    repeat (destruct Hcases as [->|Hcases]; [assumption|]). now subst k.
  - apply land_low_bits; [lia|]. change (Z.log2 15) with 3. intros k Hk.
    assert (Hcases : k = 0 \/ k = 1 \/ k = 2 \/ k = 3) by lia.
    repeat (destruct Hcases as [->|Hcases]; [assumption|]). now subst k.
Qed.

Lemma button_line_determines_report_at_0x31 :
  49 = 49 /\ Z.land 137 127 = Z.land 9 127 /\ Z.land 21 15 = Z.land 245 15.
Proof.
  apply (button_line_determines_report (repeat "z"%char 256) (repeat NUL 256)
           49 137 21 49 9 245).
  - reflexivity.
  - reflexivity.
  - unfold is_u8. lia.
  - unfold is_u8. lia.
  - vm_compute. reflexivity.
Defined.

(** X13: a battery line determines the level it reports, and no battery
    line equals a button line, so a reader can tell the two kinds of line
    apart and recover the level. *)
Theorem battery_line_determines_level (stk stk' : stack)
    (level level' report_id byte1 byte2 : Z) :
  stack_wf stk -> stack_wf stk' ->
  is_u8 level -> is_u8 level' -> is_u8 report_id ->
  (chars (format_battery (battery_output stk) level)
   = chars (format_battery (battery_output stk') level') -> level = level') /\
  chars (format_battery (battery_output stk) level)
  <> chars (format_buttons (mapping_output stk') report_id byte1 byte2).
Proof.
  intros [_ Hbat] [Hmap' Hbat'] Hlevel Hlevel' Hid.
  rewrite !format_battery_chars, format_buttons_chars by assumption. split.
  - unfold battery_entry. rewrite !list_ascii_app. intros Heq.
    apply app_inv_tail, app_inv_head, list_ascii_of_string_inj, decimal_inj in Heq;
      unfold is_u8 in *; lia.
  - unfold battery_entry, button_entry. rewrite !list_ascii_app. simpl. discriminate.
Qed.

Lemma battery_line_determines_level_at_90 :
  let stk := mkStack (repeat "z"%char 256) (repeat "z"%char 64) in
  (chars (format_battery (battery_output stk) 90)
   = chars (format_battery (battery_output stk) 9) -> 90 = 9) /\
  chars (format_battery (battery_output stk) 90)
  <> chars (format_buttons (mapping_output stk) 32 90 0).
Proof.
  intros stk. apply (battery_line_determines_level stk stk 90 9 32 90 0).
  - split; reflexivity.
  - split; reflexivity.
  - unfold is_u8. lia.
  - unfold is_u8. lia.
  - unfold is_u8. lia.
Defined.

(** ** Loading and unloading the module *)

Lemma kret_nonpos (k : kresult) : kret k <= 0 /\ (kret k = 0 <-> k = KOk).
Proof.
  destruct k as [|e]; simpl; split; try lia; split; intros H; try reflexivity;
    try discriminate; lia.
Qed.

(** X14: [wii_init] returns 0 exactly when the proc entry, the device
    number region, the cdev, the class and the HID driver are all
    registered; then all five stay registered, with the device node if
    [device_create] worked (its failure is not noticed).  Otherwise it
    returns the error of the first call that failed ([-ENOMEM] for the proc
    entry), has released everything it registered after the proc entry, and
    leaves the proc entry itself registered: no path removes it. *)
Theorem wii_init_registers_or_unwinds (a : init_answers) :
  let r := wii_init a statics_init in
  let dev := allocated_dev a in
  (fst (fst r) = 0 <-> all_succeed a = true) /\
  (all_succeed a = true ->
   live (snd r) = HidDriver :: (if device_create a then [Device dev] else [])
                  ++ [Class; Cdev dev; ChrdevRegion dev; ProcEntry]) /\
  (all_succeed a = false ->
   fst (fst r) < 0 /\
   live (snd r) = (if proc_create a then [ProcEntry] else []) /\
   fst (fst r) = (if negb (proc_create a) then - ENOMEM
                  else match alloc_chrdev_region a, cdev_add a, class_create a with
                       | KErr _, _, _ => kret (alloc_chrdev_region a)
                       | KOk, KErr _, _ => kret (cdev_add a)
                       | KOk, KOk, KErr _ => kret (class_create a)
                       | KOk, KOk, KOk => kret (hid_register_driver a)
                       end)).
Proof.
  intros r dev. unfold r, dev, wii_init, all_succeed, statics_init, live, ENOMEM.
  destruct a as [pc ac d ca cc dc hr]. cbn [proc_create alloc_chrdev_region allocated_dev
    cdev_add class_create device_create hid_register_driver wii_proc_entry major wii_class].
  destruct pc; [|simpl; repeat split; intros; try discriminate; try reflexivity; lia].
  destruct ac as [|e1];
    [|simpl; repeat split; intros; try discriminate; try reflexivity; lia].
  destruct ca as [|e2];
    [|simpl; repeat (rewrite Z.eqb_refl; simpl);
      repeat split; intros; try discriminate; try reflexivity; lia].
  destruct cc as [|e3];
    [|simpl; repeat (rewrite Z.eqb_refl; simpl);
      repeat split; intros; try discriminate; try reflexivity; lia].
  destruct hr as [|e4]; destruct dc; simpl; repeat (rewrite Z.eqb_refl; simpl);
    repeat split; intros; try discriminate; try reflexivity; lia.
Qed.

Lemma MKDEV_MAJOR (dev : Z) : 0 <= dev -> MINOR dev = 0 -> MKDEV (MAJOR dev) 0 = dev.
Proof.
  intros Hdev Hminor. unfold MKDEV, MAJOR, MINOR, MINORBITS in *.
  rewrite Z.lor_0_r, Z.shiftr_div_pow2, Z.shiftl_mul_pow2 by lia.
  change (2 ^ 20 - 1) with (Z.ones 20) in Hminor.
  rewrite Z.land_ones in Hminor by lia.
  pose proof (Z.div_mod dev (2 ^ 20)). lia.
Qed.

(** X15: a load that succeeds followed by an unload leaves nothing
    registered, provided the region the kernel allocated starts at minor 0
    (as [alloc_chrdev_region] with base minor 0 gives it): [wii_exit]
    rebuilds the device number from the saved major and minor 0, and that is
    the number [wii_init] registered. *)
Theorem load_then_unload_releases_all (a : init_answers) :
  all_succeed a = true ->
  0 <= allocated_dev a -> MINOR (allocated_dev a) = 0 ->
  let r := wii_init a statics_init in
  let x := wii_exit (snd (fst r)) in
  fst (fst r) = 0 /\
  MKDEV (major (snd (fst r))) 0 = allocated_dev a /\
  live (snd r ++ snd x) = [] /\
  wii_proc_entry (fst x) = false.
Proof.
  intros Hall Hdev Hminor r x. unfold all_succeed in Hall.
  destruct a as [pc ac d ca cc dc hr]. cbn [proc_create alloc_chrdev_region allocated_dev
    cdev_add class_create device_create hid_register_driver] in *.
  destruct pc; [|discriminate]. destruct ac; [|discriminate].
  destruct ca; [|discriminate]. destruct cc; [|discriminate].
  destruct hr; [|discriminate].
  assert (Hinit : r = (0, mkStatics true (MAJOR d) KOk,
                       [Acquired ProcEntry; Acquired (ChrdevRegion d); Acquired (Cdev d);
                        Acquired Class;
                        if dc then Acquired (Device d) else Refused (Device d) 0;
                        Acquired HidDriver; Logged "driver loaded"])) by reflexivity.
  unfold x. rewrite Hinit. unfold wii_exit.
  cbn [fst snd major wii_proc_entry wii_class]. rewrite (MKDEV_MAJOR d Hdev Hminor).
  split; [reflexivity|]. split; [reflexivity|]. split; [|reflexivity].
  unfold live.
  destruct dc;
    repeat (cbn [app fold_left live_after filter resource_eqb negb];
            rewrite ?Z.eqb_refl); reflexivity.
Qed.

Lemma load_then_unload_at_major_240 :
  let a := mkAnswers true KOk (MKDEV 240 0) KOk KOk true KOk in
  let r := wii_init a statics_init in
  let x := wii_exit (snd (fst r)) in
  fst (fst r) = 0 /\
  MKDEV (major (snd (fst r))) 0 = MKDEV 240 0 /\
  live (snd r ++ snd x) = [] /\
  wii_proc_entry (fst x) = false.
Proof.
  intros a. apply (load_then_unload_releases_all a).
  - reflexivity.
  - vm_compute. discriminate.
  - reflexivity.
Defined.

(** ** The skeleton driver *)

Lemma to_bool_mask (b k : Z) :
  0 <= k -> Skeleton.to_bool (Z.land b (2 ^ k)) = Z.testbit b k.
Proof.
  intros Hk. unfold Skeleton.to_bool. rewrite mask_test by assumption.
  apply negb_involutive.
Qed.

Lemma skeleton_calls (h : Skeleton.hid_state) (in_dev : Skeleton.input_dev)
    (data : list Z) :
  Skeleton.drvdata h = Some in_dev ->
  (3 <= List.length data)%nat ->
  Skeleton.wii_parse_report h data
  = Some (0,
     let b1 := nth 1 data 0 in
     let b2 := nth 2 data 0 in
     [Skeleton.PrintkReport (nth 0 data 0)
        [Z.testbit b1 0; Z.testbit b1 1; Z.testbit b1 3; Z.testbit b1 2; Z.testbit b1 4;
         Z.testbit b1 5; Z.testbit b1 6; Z.testbit b2 0; Z.testbit b2 1; Z.testbit b2 2;
         Z.testbit b2 3];
      Skeleton.InputReportKey in_dev Skeleton.KEY_RIGHT (Z.testbit b1 0);
      Skeleton.InputReportKey in_dev Skeleton.KEY_LEFT (Z.testbit b1 1);
      Skeleton.InputReportKey in_dev Skeleton.KEY_UP (Z.testbit b1 3);
      Skeleton.InputReportKey in_dev Skeleton.KEY_DOWN (Z.testbit b1 2);
      Skeleton.InputReportKey in_dev Skeleton.KEY_KPPLUS (Z.testbit b1 4);
      Skeleton.InputReportKey in_dev Skeleton.KEY_KPMINUS (Z.testbit b1 5);
      Skeleton.InputReportKey in_dev Skeleton.KEY_HOME (Z.testbit b1 6);
      Skeleton.InputReportKey in_dev Skeleton.KEY_A (Z.testbit b2 0);
      Skeleton.InputReportKey in_dev Skeleton.KEY_B (Z.testbit b2 1);
      Skeleton.InputReportKey in_dev Skeleton.KEY_1 (Z.testbit b2 2);
      Skeleton.InputReportKey in_dev Skeleton.KEY_2 (Z.testbit b2 3);
      Skeleton.InputSync in_dev]).
Proof.
  intros Hdata Hsize. unfold Skeleton.wii_parse_report. rewrite Hdata.
  destruct (Z.ltb_spec (Z.of_nat (List.length data)) 3) as [Hlt|_]; [lia|].
  cbv zeta.
  rewrite <- !(to_bool_mask (nth 1 data 0)), <- !(to_bool_mask (nth 2 data 0)) by lia.
  reflexivity.
Qed.

(** X16: the skeleton driver reads the input device from the driver data
    before it looks at the report, so without driver data it faults on
    every report, also on one that is too short.  With driver data set it
    returns 0: on a report of less than three bytes it makes no call; on a
    longer one it reports each of the eleven keys once on that input device
    and then synchronises once; the value of a key is the bit of its button,
    and, taken in the order of the button table, these values are the flags
    that are read back from the names the text driver prints for the same
    two bytes. *)
Theorem skeleton_keys_agree_with_text (h : Skeleton.hid_state) (data : list Z) :
  (Skeleton.drvdata h = None -> Skeleton.wii_parse_report h data = None) /\
  (forall in_dev, Skeleton.drvdata h = Some in_dev ->
   exists calls,
     Skeleton.wii_parse_report h data = Some (0, calls) /\
     ((List.length data < 3)%nat -> calls = []) /\
     ((3 <= List.length data)%nat ->
      map (fun k => Skeleton.key_values k calls) Skeleton.key_table
      = map (fun f => [f]) (names_to_flags (pressed_names (nth 1 data 0) (nth 2 data 0))) /\
      map (fun k => Skeleton.key_values k calls) Skeleton.key_table
      = map (fun b => [button_flag (nth 1 data 0) (nth 2 data 0) b]) button_table /\
      last calls (Skeleton.InputSync in_dev) = Skeleton.InputSync in_dev /\
      List.length (filter (fun c => match c with
                                    | Skeleton.InputSync _ => true
                                    | _ => false
                                    end) calls) = 1%nat /\
      Forall (fun c => match c with
                       | Skeleton.InputReportKey dev _ _ | Skeleton.InputSync dev =>
                           dev = in_dev
                       | Skeleton.PrintkReport _ _ => True
                       end) calls)).
Proof.
  split.
  - intros Hnone. unfold Skeleton.wii_parse_report. now rewrite Hnone.
  - intros in_dev Hdata.
    destruct (Nat.lt_ge_cases (List.length data) 3) as [Hshort|Hsize].
    + exists []. unfold Skeleton.wii_parse_report. rewrite Hdata.
      destruct (Z.ltb_spec (Z.of_nat (List.length data)) 3) as [_|Hge]; [|lia].
      split; [reflexivity|]. split; [reflexivity|]. intros Hsize. lia.
    + eexists. split; [exact (skeleton_calls h in_dev data Hdata Hsize)|].
      split; [intros Hshort; lia|]. intros _. cbv zeta.
      rewrite pressed_names_render, render_names_read_back
        by (rewrite length_map; reflexivity).
      split; [reflexivity|]. split; [reflexivity|]. split; [reflexivity|].
      split; [reflexivity|]. repeat constructor.
Qed.

Lemma skeleton_keys_agree_with_text_at_0x31 :
  let in_dev := Skeleton.mkInput "Wii Remote" None [Skeleton.EV_KEY] Skeleton.key_table in
  let h := Skeleton.mkHid (Skeleton.mkIds 5 1406 774 0) true (Some in_dev) (Some in_dev) in
  exists calls,
    Skeleton.wii_parse_report h [49; 9; 5] = Some (0, calls) /\
    map (fun k => Skeleton.key_values k calls) Skeleton.key_table
    = map (fun b => [button_flag 9 5 b]) button_table.
Proof.
  intros in_dev h.
  destruct (skeleton_keys_agree_with_text h [49; 9; 5]) as [_ Hset].
  destruct (Hset in_dev eq_refl) as (calls & Hcall & _ & Hfull).
  exists calls. split; [exact Hcall|]. apply Hfull. simpl. lia.
Defined.

(** X17: a probe of the skeleton driver returns 0 exactly when all five
    kernel calls succeed; then the driver data is the registered input
    device, named "Wii Remote", that announces key events and the eleven
    keys; [wii_parse_report] then finds its driver data, and every key it
    ever reports is one of them.
    A probe that fails returns the error of the first failing call
    ([-ENOMEM] for the two allocations) and leaves the driver data as it
    was; if the failure comes after [hid_hw_start] succeeded the hardware
    stays started, since only [wii_remove] stops it. *)
Theorem skeleton_probe_announces_reported_keys
    (a : Skeleton.probe_answers) (h : Skeleton.hid_state) (data : list Z) :
  let r := Skeleton.wii_probe a h in
  let ok := (Skeleton.hid_parse a =? 0) && (Skeleton.hid_hw_start a =? 0)
            && Skeleton.devm_kzalloc a && Skeleton.devm_input_allocate_device a
            && (Skeleton.input_register_device a =? 0) in
  (fst r = 0 <-> ok = true) /\
  (ok = true ->
   exists input,
     Skeleton.drvdata (snd r) = Some input /\
     Skeleton.registered_input (snd r) = Some input /\
     Skeleton.name input = "Wii Remote"%string /\
     Skeleton.id input = Some (Skeleton.ids h) /\
     Skeleton.evbit input = [Skeleton.EV_KEY] /\
     (forall k, In k (Skeleton.keybit input) <-> In k Skeleton.key_table) /\
     NoDup (Skeleton.keybit input) /\
     (exists calls,
        Skeleton.wii_parse_report (snd r) data = Some (0, calls) /\
        forall k, In k (Skeleton.reported_keys calls) -> In k (Skeleton.keybit input))) /\
  (ok = false ->
   Skeleton.drvdata (snd r) = Skeleton.drvdata h /\
   Skeleton.registered_input (snd r) = Skeleton.registered_input h /\
   Skeleton.hw_started (snd r)
   = (if (Skeleton.hid_parse a =? 0) && (Skeleton.hid_hw_start a =? 0) then true
      else Skeleton.hw_started h) /\
   Skeleton.hw_started (Skeleton.wii_remove (snd r)) = false /\
   fst r = (if negb (Skeleton.hid_parse a =? 0) then Skeleton.hid_parse a
            else if negb (Skeleton.hid_hw_start a =? 0) then Skeleton.hid_hw_start a
            else if negb (Skeleton.devm_kzalloc a && Skeleton.devm_input_allocate_device a)
                 then - ENOMEM
                 else Skeleton.input_register_device a)).
Proof.
  intros r ok. unfold r, ok, Skeleton.wii_probe, ENOMEM.
  destruct a as [hp hs kz ia ir].
  cbn [Skeleton.hid_parse Skeleton.hid_hw_start Skeleton.devm_kzalloc
       Skeleton.devm_input_allocate_device Skeleton.input_register_device].
  destruct (Z.eqb_spec hp 0) as [->|Hp]; cbn [negb andb];
    [|repeat split; intros; try discriminate; try contradiction; reflexivity].
  destruct (Z.eqb_spec hs 0) as [->|Hs]; cbn [negb andb];
    [|repeat split; intros; try discriminate; try contradiction; reflexivity].
  destruct kz; cbn [negb andb];
    [|repeat split; intros; try discriminate; reflexivity].
  destruct ia; cbn [negb andb];
    [|repeat split; intros; try discriminate; reflexivity].
  destruct (Z.eqb_spec ir 0) as [->|Hr]; cbn [negb andb];
    [|repeat split; intros; try discriminate; try contradiction; reflexivity].
  split; [split; reflexivity|]. split; [|intros; discriminate].
  intros _. eexists. cbn [fst snd Skeleton.drvdata Skeleton.registered_input].
  split; [reflexivity|]. split; [reflexivity|].
  cbn [Skeleton.set_keybit Skeleton.set_evbit Skeleton.name Skeleton.id Skeleton.evbit
       Skeleton.keybit Skeleton.ids].
  split; [reflexivity|]. split; [reflexivity|]. split; [reflexivity|].
  split; [|split].
  - intros k. unfold Skeleton.key_table. cbn [In]. destruct k; intuition congruence.
  - repeat (constructor; [cbn [In]; intuition discriminate|]). constructor.
  - unfold Skeleton.wii_parse_report. cbn [Skeleton.drvdata].
    destruct (_ <? _).
    + exists []. split; [reflexivity|]. intros k [].
    + eexists. split; [reflexivity|].
      cbv zeta. cbn [Skeleton.reported_keys flat_map app In]. intros k Hk.
      intuition (subst; auto).
Qed.
